(** * Influencer investment platform: the list query of the dashboard
      and the scoring engine it is a client of.

    The first part embeds the JavaScript of the React front end
    (the [InfluencerList] and [InfluencerDetail] pages): the filter chain
    and the sort of [fetchInfluencers], and the growth badge.  JavaScript
    numbers are exact rationals here (every number the pages handle is a
    decimal literal or the result of [parseInt]); [NaN] only arises from
    [parseInt] and is the [None] of its result.  Strings are byte strings,
    so [toLowerCase] and the white space skipped by [parseInt] are the ASCII
    ones.

    The second part models the scoring engine, which the front end only
    calls: each of its definitions says so. *)

From Stdlib Require Import List String Ascii Bool ZArith QArith Qround Qminmax Lia Lqa.
From Stdlib Require Import Sorting.Sorted Sorting.Permutation.
From Stdlib Require Import DecimalString DecimalZ DecimalPos.
Import ListNotations.

Local Open Scope string_scope.
Local Open Scope Z_scope.

(** ** JavaScript values used by the pages *)

Module JS.

(** A value that is either [undefined] ([None]) or a string. *)
Definition value := option string.

(** [if (v)]: [undefined] and the empty string are falsy. *)
Definition truthy (v : value) : bool :=
  match v with
  | None => false
  | Some EmptyString => false
  | Some (String _ _) => true
  end.

Definition is_upper (c : ascii) : bool :=
  (65 <=? nat_of_ascii c)%nat && (nat_of_ascii c <=? 90)%nat.

Definition lower_char (c : ascii) : ascii :=
  if is_upper c then ascii_of_nat (nat_of_ascii c + 32) else c.

(** [String.prototype.toLowerCase] *)
Fixpoint toLowerCase (s : string) : string :=
  match s with
  | EmptyString => EmptyString
  | String c t => String (lower_char c) (toLowerCase t)
  end.

(** [String.prototype.includes]: [sub] occurs somewhere in [s]. *)
Fixpoint includes (s sub : string) : bool :=
  if String.prefix sub s then true
  else match s with
       | EmptyString => false
       | String _ t => includes t sub
       end.

Definition is_white (c : ascii) : bool :=
  let n := nat_of_ascii c in
  ((9 <=? n)%nat && (n <=? 13)%nat) || (n =? 32)%nat.

Fixpoint trim_start (s : string) : string :=
  match s with
  | EmptyString => EmptyString
  | String c t => if is_white c then trim_start t else s
  end.

(** The value of [c] as a digit of the given radix (10 or 16). *)
Definition digit_val (radix : Z) (c : ascii) : option Z :=
  let n := Z.of_nat (nat_of_ascii c) in
  let d := if (48 <=? n) && (n <=? 57) then Some (n - 48)
           else if (97 <=? n) && (n <=? 102) then Some (n - 87)
           else if (65 <=? n) && (n <=? 70) then Some (n - 55)
           else None in
  match d with
  | Some v => if v <? radix then Some v else None
  | None => None
  end.

(** The longest prefix of digits, read as a number; [acc] is [None] until
    a digit has been seen. *)
Fixpoint read_digits (radix : Z) (s : string) (acc : option Z) : option Z :=
  match s with
  | EmptyString => acc
  | String c t =>
      match digit_val radix c with
      | Some d =>
          read_digits radix t
            (Some (match acc with Some a => a * radix + d | None => d end))
      | None => acc
      end
  end.

Definition strip_sign (s : string) : Z * string :=
  match s with
  | String "-" t => (-1, t)
  | String "+" t => (1, t)
  | _ => (1, s)
  end.

Definition strip_prefix (s : string) : Z * string :=
  match s with
  | String "0" (String "x" t) => (16, t)
  | String "0" (String "X" t) => (16, t)
  | _ => (10, s)
  end.

(** [parseInt(s)] with no radix argument; [None] is [NaN]. *)
Definition parseInt (s : string) : option Z :=
  let (sign, s1) := strip_sign (trim_start s) in
  let (radix, s2) := strip_prefix s1 in
  option_map (Z.mul sign) (read_digits radix s2 None).

(** [x > y] on numbers. *)
Definition gt (x y : Q) : bool := negb (Qle_bool x y).

(** [x >= n] and [x <= n] on numbers: false when [n] is [NaN]. *)
Definition ge (x : Q) (n : option Z) : bool :=
  match n with
  | Some z => Qle_bool (inject_Z z) x
  | None => false
  end.

Definition le (x : Q) (n : option Z) : bool :=
  match n with
  | Some z => Qle_bool x (inject_Z z)
  | None => false
  end.

End JS.

(** ** The list page: [InfluencerList] *)

Record Influencer := {
  id : Z;
  username : string;
  full_name : string;
  overall_investment_score : Q;
  follower_count : Q;
  engagement_rate : Q;
  category : string;
  growth_rate : Q
}.

(** The built-in list of [fetchInfluencers]. *)
Definition mockInfluencers : list Influencer :=
  [ {| id := 1; username := "tech_influencer"; full_name := "Tech Expert";
       overall_investment_score := 92; follower_count := 1500000;
       engagement_rate := 4.8; category := "Technology"; growth_rate := 3.2 |};
    {| id := 2; username := "fitness_guru"; full_name := "Fitness Coach";
       overall_investment_score := 88; follower_count := 2200000;
       engagement_rate := 3.9; category := "Fitness"; growth_rate := 2.7 |};
    {| id := 3; username := "travel_explorer"; full_name := "Travel Blogger";
       overall_investment_score := 85; follower_count := 980000;
       engagement_rate := 5.2; category := "Travel"; growth_rate := 4.1 |};
    {| id := 4; username := "food_lover"; full_name := "Food Critic";
       overall_investment_score := 82; follower_count := 1200000;
       engagement_rate := 4.1; category := "Food"; growth_rate := 2.9 |};
    {| id := 5; username := "fashion_icon"; full_name := "Fashion Designer";
       overall_investment_score := 80; follower_count := 3100000;
       engagement_rate := 3.2; category := "Fashion"; growth_rate := 1.8 |};
    {| id := 6; username := "rising_star"; full_name := "Entertainment Star";
       overall_investment_score := 78; follower_count := 350000;
       engagement_rate := 6.8; category := "Entertainment"; growth_rate := 12.5 |};
    {| id := 7; username := "new_creator"; full_name := "Digital Artist";
       overall_investment_score := 76; follower_count := 180000;
       engagement_rate := 7.2; category := "Art"; growth_rate := 10.2 |};
    {| id := 8; username := "upcoming_talent"; full_name := "Music Producer";
       overall_investment_score := 75; follower_count := 420000;
       engagement_rate := 5.9; category := "Music"; growth_rate := 9.7 |};
    {| id := 9; username := "growing_fast"; full_name := "Gaming Streamer";
       overall_investment_score := 74; follower_count := 290000;
       engagement_rate := 6.1; category := "Gaming"; growth_rate := 8.9 |};
    {| id := 10; username := "trending_now"; full_name := "Lifestyle Blogger";
       overall_investment_score := 72; follower_count := 520000;
       engagement_rate := 5.5; category := "Lifestyle"; growth_rate := 8.3 |};
    {| id := 11; username := "beauty_expert"; full_name := "Makeup Artist";
       overall_investment_score := 70; follower_count := 890000;
       engagement_rate := 4.7; category := "Beauty"; growth_rate := 3.5 |};
    {| id := 12; username := "health_coach"; full_name := "Wellness Coach";
       overall_investment_score := 68; follower_count := 670000;
       engagement_rate := 4.9; category := "Health"; growth_rate := 4.2 |} ]%Q.

(** The columns [handleSort] is called with. *)
Inductive SortField :=
| by_overall_investment_score
| by_follower_count
| by_engagement_rate
| by_growth_rate.

Inductive SortDirection := asc | desc.

(** The [filters] state object. *)
Record Filters := {
  f_category : JS.value;
  minFollowers : JS.value;
  maxFollowers : JS.value;
  minScore : JS.value;
  maxScore : JS.value
}.

(** The state [fetchInfluencers] depends on. *)
Record Query := {
  searchTerm : JS.value;
  sortField : SortField;
  sortDirection : SortDirection;
  filters : Filters
}.

(** [a[sortField]] *)
Definition field (f : SortField) (a : Influencer) : Q :=
  match f with
  | by_overall_investment_score => overall_investment_score a
  | by_follower_count => follower_count a
  | by_engagement_rate => engagement_rate a
  | by_growth_rate => growth_rate a
  end.

(** The comparator handed to [sort]. *)
Definition comparator (f : SortField) (d : SortDirection) (a b : Influencer) : Q :=
  match d with
  | asc => field f a - field f b
  | desc => field f b - field f a
  end.

(** [Array.prototype.sort] is stable: with a comparator [cmp], [a] is placed
    before [b] when [cmp a b < 0] and elements that compare equal keep their
    order.  Insertion from the right computes that list. *)
Section Sort.
Context {A : Type} (cmp : A -> A -> Q).

Fixpoint insert (x : A) (l : list A) : list A :=
  match l with
  | [] => [x]
  | y :: t => if Qle_bool (cmp x y) 0 then x :: l else y :: insert x t
  end.

Fixpoint sort (l : list A) : list A :=
  match l with
  | [] => []
  | x :: t => insert x (sort t)
  end.

End Sort.

(** One [if (v) { list = list.filter(p) }] step of the filter chain. *)
Definition filterIf (v : JS.value) (p : string -> Influencer -> bool)
    (l : list Influencer) : list Influencer :=
  match v with
  | Some s => if JS.truthy v then filter (p s) l else l
  | None => l
  end.

Definition matchesSearch (searchTerm : string) (inf : Influencer) : bool :=
  let search := JS.toLowerCase searchTerm in
  JS.includes (JS.toLowerCase (username inf)) search
  || JS.includes (JS.toLowerCase (full_name inf)) search
  || JS.includes (JS.toLowerCase (category inf)) search.

(** [fetchInfluencers], over the list it filters and sorts. *)
Definition fetchInfluencersFrom (l : list Influencer) (q : Query) : list Influencer :=
  let fl := filters q in
  let l := filterIf (searchTerm q) matchesSearch l in
  let l := filterIf (f_category fl)
             (fun v inf => String.eqb (category inf) v) l in
  let l := filterIf (minFollowers fl)
             (fun v inf => JS.ge (follower_count inf) (JS.parseInt v)) l in
  let l := filterIf (maxFollowers fl)
             (fun v inf => JS.le (follower_count inf) (JS.parseInt v)) l in
  let l := filterIf (minScore fl)
             (fun v inf => JS.ge (overall_investment_score inf) (JS.parseInt v)) l in
  let l := filterIf (maxScore fl)
             (fun v inf => JS.le (overall_investment_score inf) (JS.parseInt v)) l in
  sort (comparator (sortField q) (sortDirection q)) l.

Definition fetchInfluencers (q : Query) : list Influencer :=
  fetchInfluencersFrom mockInfluencers q.

(** The state the page starts in. *)
Definition noFilters : Filters :=
  {| f_category := Some ""; minFollowers := Some ""; maxFollowers := Some "";
     minScore := Some ""; maxScore := Some "" |}.

Definition initialQuery : Query :=
  {| searchTerm := Some ""; sortField := by_overall_investment_score;
     sortDirection := desc; filters := noFilters |}.


(** The growth badge of a table row: the green badge is the [high] tier,
    the blue one [positive] and the red one [declining]. *)
Inductive MomentumTier := high | positive | declining.

Definition momentum (inf : Influencer) : MomentumTier :=
  if JS.gt (growth_rate inf) 5 then high
  else if JS.gt (growth_rate inf) 0 then positive
  else declining.

(** ** The detail page: [InfluencerDetail] *)

Inductive Arrow := ArrowUpIcon | ArrowDownIcon.

Definition growthArrow (inf : Influencer) : Arrow :=
  if JS.gt (growth_rate inf) 0 then ArrowUpIcon else ArrowDownIcon.

(** ** What a query asks for

    The reading of a query that the list page is compared with: each filter
    that is set (a non-empty string) is a condition on the subject, and a
    subject is listed when it meets all of them. *)

Definition active (v : JS.value) (s : string) : Prop :=
  v = Some s /\ s <> "".

(** The free-text condition over the three text columns the page searches. *)
Definition textMatch (s : string) (inf : Influencer) : Prop :=
  JS.includes (JS.toLowerCase (username inf)) (JS.toLowerCase s) = true
  \/ JS.includes (JS.toLowerCase (full_name inf)) (JS.toLowerCase s) = true
  \/ JS.includes (JS.toLowerCase (category inf)) (JS.toLowerCase s) = true.

(** The free-text condition over handle and category only. *)
Definition handleOrCategoryMatch (s : string) (inf : Influencer) : bool :=
  JS.includes (JS.toLowerCase (username inf)) (JS.toLowerCase s)
  || JS.includes (JS.toLowerCase (category inf)) (JS.toLowerCase s).

(** A lower and an upper bound, read from the text of the filter. *)
Definition atLeast (x : Q) (s : string) : Prop :=
  exists n, JS.parseInt s = Some n /\ (inject_Z n <= x)%Q.

Definition atMost (x : Q) (s : string) : Prop :=
  exists n, JS.parseInt s = Some n /\ (x <= inject_Z n)%Q.

Definition satisfies (q : Query) (inf : Influencer) : Prop :=
  (forall s, active (searchTerm q) s -> textMatch s inf)
  /\ (forall s, active (f_category (filters q)) s -> category inf = s)
  /\ (forall s, active (minFollowers (filters q)) s -> atLeast (follower_count inf) s)
  /\ (forall s, active (maxFollowers (filters q)) s -> atMost (follower_count inf) s)
  /\ (forall s, active (minScore (filters q)) s -> atLeast (overall_investment_score inf) s)
  /\ (forall s, active (maxScore (filters q)) s -> atMost (overall_investment_score inf) s).

(** [a] stands before [b] in [l]. *)
Definition before {A : Type} (l : list A) (a b : A) : Prop :=
  exists l1 l2 l3, l = (l1 ++ a :: l2 ++ b :: l3)%list.

(** The list is in ascending order of [id]. *)
Definition idAscending (l : list Influencer) : Prop :=
  StronglySorted (fun a b => id a < id b) l.

(** [a] is to stand above [b]: by the sort column in the sort direction,
    and by ascending [id] where the column ties. *)
Definition byColumnThenId (q : Query) (a b : Influencer) : Prop :=
  match sortDirection q with
  | asc => (field (sortField q) a < field (sortField q) b)%Q
  | desc => (field (sortField q) b < field (sortField q) a)%Q
  end
  \/ ((field (sortField q) a == field (sortField q) b)%Q /\ id a < id b).

(** Sample inputs: a search for "expert", the first subject of the built-in
    list, two subjects that differ in growth rate (and [id]) only, and two
    subjects with the same score. *)
Definition expertQuery : Query :=
  {| searchTerm := Some "expert"; sortField := by_overall_investment_score;
     sortDirection := desc; filters := noFilters |}.

Definition techInfluencer : Influencer :=
  {| id := 1; username := "tech_influencer"; full_name := "Tech Expert";
     overall_investment_score := 92; follower_count := 1500000;
     engagement_rate := 4.8; category := "Technology"; growth_rate := 3.2 |}%Q.

Definition slowTwin : Influencer :=
  {| id := 1; username := "twin"; full_name := "Twin";
     overall_investment_score := 80; follower_count := 1000;
     engagement_rate := 1; category := "Art"; growth_rate := 1 |}%Q.

Definition fastTwin : Influencer :=
  {| id := 2; username := "twin"; full_name := "Twin";
     overall_investment_score := 80; follower_count := 1000;
     engagement_rate := 1; category := "Art"; growth_rate := 50 |}%Q.

Definition tiedLow : Influencer :=
  {| id := 1; username := "first"; full_name := "First";
     overall_investment_score := 80; follower_count := 1000;
     engagement_rate := 1; category := "Art"; growth_rate := 1 |}%Q.

Definition tiedHigh : Influencer :=
  {| id := 2; username := "second"; full_name := "Second";
     overall_investment_score := 80; follower_count := 2000;
     engagement_rate := 2; category := "Art"; growth_rate := 2 |}%Q.

(** * The scoring engine

    The engine (snapshot validation, cohort normalisation, score
    composition, trend calculation) is the back end that the pages above
    query; the definitions below follow its specification. *)

(** ** Cohort Normalizer *)

Module CohortNormalizer.

(** Modelled from the spec: the Cohort Normalizer's ordering of a cohort,
    which is not among the sources.  A cohort is the list of the values of
    one raw metric, one value per subject; ranks are read off the cohort in
    ascending order. *)
Definition ascending (cohort : list Q) : list Q :=
  sort (fun a b => a - b)%Q cohort.

(** Modelled from the spec: the ranks of tied values, which the missing
    normalizer averages.  The ranks, counted from [k], of the entries of
    the ordered cohort [s] that equal [v]. *)
Fixpoint tiedRanks (v : Q) (k : Z) (s : list Q) : list Z :=
  match s with
  | [] => []
  | y :: t => if Qeq_bool y v then k :: tiedRanks v (k + 1) t
              else tiedRanks v (k + 1) t
  end.

Definition total (rs : list Z) : Z := fold_right Z.add 0 rs.

Definition mean (rs : list Z) : Q :=
  (inject_Z (total rs) / inject_Z (Z.of_nat (List.length rs)))%Q.

(** Modelled from the spec: the rank of the missing normalizer, "rank ties
    broken by averaging ranks of tied values". *)
Definition rank (cohort : list Q) (v : Q) : Q :=
  mean (tiedRanks v 1 (ascending cohort)).

(** Modelled from the spec: the missing normalizer's
    [percentile = 100 * (rank - 1) / (cohort_size - 1)]. *)
Definition percentile (cohort : list Q) (v : Q) : Q :=
  (100 * (rank cohort v - 1) / (inject_Z (Z.of_nat (List.length cohort)) - 1))%Q.

Definition percentiles (cohort : list Q) : list Q :=
  map (percentile cohort) cohort.

(** Modelled from the spec: the missing normalizer's choice of cohort.  A
    category cohort smaller than the configured minimum is replaced by the
    global cohort and the result is flagged [low_confidence]. *)
Definition normalize (minimum : nat) (global cohort : list Q) (v : Q) : Q * bool :=
  if (List.length cohort <? minimum)%nat then (percentile global v, true)
  else (percentile cohort v, false).

(** The number of values of the cohort below [v], and equal to it. *)
Definition below (v : Q) (cohort : list Q) : Z :=
  Z.of_nat (List.length (filter (fun x => negb (Qle_bool v x)) cohort)).

Definition tied (v : Q) (cohort : list Q) : Z :=
  Z.of_nat (List.length (filter (fun x => Qeq_bool x v) cohort)).

End CohortNormalizer.

(** ** Score Composer *)

Module ScoreComposer.

(** A percentile vector and a weight map, by metric name. *)
Definition PercentileVector := list (string * Q).
Definition WeightMap := list (string * Q).

Fixpoint lookup (m : string) (pv : PercentileVector) : option Q :=
  match pv with
  | [] => None
  | (k, p) :: t => if String.eqb k m then Some p else lookup m t
  end.

(** Modelled from the spec: the configuration of the Score Composer, which
    is not among the sources: a weight map per SubScore and the three
    weights of the overall score. *)
Record Config := {
  content_metrics : WeightMap;
  audience_metrics : WeightMap;
  brand_metrics : WeightMap;
  content_weight : Q;
  audience_weight : Q;
  brand_weight : Q
}.

(** The weights of the metrics present in the vector, and their weighted
    percentiles. *)
Fixpoint presentWeight (w : WeightMap) (pv : PercentileVector) : Q :=
  match w with
  | [] => 0
  | (m, wt) :: t =>
      match lookup m pv with
      | Some _ => wt + presentWeight t pv
      | None => presentWeight t pv
      end
  end%Q.

Fixpoint presentSum (w : WeightMap) (pv : PercentileVector) : Q :=
  match w with
  | [] => 0
  | (m, wt) :: t =>
      match lookup m pv with
      | Some p => wt * p + presentSum t pv
      | None => presentSum t pv
      end
  end%Q.

(** Modelled from the spec: the weighted sum of the missing composer.  A
    metric absent from the vector contributes nothing and its weight is
    shared among the present ones in proportion to their weights. *)
Definition weightedSum (w : WeightMap) (pv : PercentileVector) : Q :=
  if Qeq_bool (presentWeight w pv) 0 then 0%Q
  else (presentSum w pv / presentWeight w pv)%Q.

(** Rounding to the nearest integer, halves upwards. *)
Definition round (x : Q) : Z := Qfloor (x + (1 # 2))%Q.

Definition clamp (z : Z) : Z := Z.max 0 (Z.min 100 z).

Record SubScore := {
  content_quality : Z;
  audience_quality : Z;
  brand_alignment : Z
}.

(** Modelled from the spec: the SubScores of the missing composer, each
    the rounded and clamped weighted sum of its metrics. *)
Definition subScores (c : Config) (pv : PercentileVector) : SubScore :=
  {| content_quality := clamp (round (weightedSum (content_metrics c) pv));
     audience_quality := clamp (round (weightedSum (audience_metrics c) pv));
     brand_alignment := clamp (round (weightedSum (brand_metrics c) pv)) |}.

(** Modelled from the spec: the OverallScore of the missing composer, the
    rounded and clamped weighted sum of the three SubScores. *)
Definition overallScore (c : Config) (s : SubScore) : Z :=
  clamp (round (content_weight c * inject_Z (content_quality s)
                + audience_weight c * inject_Z (audience_quality s)
                + brand_weight c * inject_Z (brand_alignment s))%Q).

Definition compose (c : Config) (pv : PercentileVector) : SubScore * Z :=
  let s := subScores c pv in (s, overallScore c s).

Definition inRange (z : Z) : Prop := 0 <= z <= 100.

(** Valid input: percentiles between 0 and 100, weights not negative. *)
Definition validVector (pv : PercentileVector) : Prop :=
  Forall (fun kp => 0 <= snd kp <= 100)%Q pv.

Definition validWeights (w : WeightMap) : Prop :=
  Forall (fun kw => 0 <= snd kw)%Q w.

End ScoreComposer.

(** ** Trend Calculator: winsorization *)

Module TrendCalculator.

(** Modelled from the spec: the winsorization step of the Trend
    Calculator, which is not among the sources.  A single-cycle delta above
    [multiple] times the subject's trailing median delta is replaced by that
    bound; the boolean is the [outlier_dampened] mark. *)
Definition winsorize (multiple median delta : Q) : Q * bool :=
  if Qle_bool delta (multiple * median) then (delta, false)
  else ((multiple * median)%Q, true).

(** The single-cycle deltas of a chronological window of follower counts. *)
Fixpoint deltas (window : list Q) : list Q :=
  match window with
  | a :: t => match t with
              | b :: _ => (b - a)%Q :: deltas t
              | [] => []
              end
  | [] => []
  end.

Definition dampened (multiple median : Q) (window : list Q) : list (Q * bool) :=
  map (winsorize multiple median) (deltas window).

Definition sumQ (l : list Q) : Q := fold_right Qplus 0%Q l.

Record Trend := {
  growth_rate : option Q;
  outlier_dampened : bool
}.

(** Modelled from the spec: the growth rate of the missing Trend
    Calculator, the percentage change of the follower count from the
    earliest to the latest snapshot of the window, taken after winsorization
    (the latest count is the earliest one plus the dampened deltas); it is
    unknown on a window of fewer than two snapshots. *)
Definition trend (multiple median : Q) (window : list Q) : Trend :=
  match window with
  | earliest :: _ :: _ =>
      let d := dampened multiple median window in
      {| growth_rate := Some (100 * sumQ (map fst d) / earliest)%Q;
         outlier_dampened := existsb snd d |}
  | _ => {| growth_rate := None; outlier_dampened := false |}
  end.

End TrendCalculator.

(** ** Snapshot Validator and Snapshot Store *)

Module SnapshotValidator.

Record RawMetrics := {
  follower_count : option Z;
  following_count : option Z;
  post_count : option Z;
  engagement_rate : option Q
}.

Record Snapshot := {
  subject_id : Z;
  collected_at : Z;
  raw_metrics : RawMetrics
}.

Inductive Reason := missing_field | negative_count | out_of_order.

Inductive Outcome := accepted | rejected (reason : Reason).

(** The append-only log, oldest snapshot first, and the categories marked
    dirty for the next recompute cycle. *)
Record State := {
  log : list Snapshot;
  dirty : list string
}.

Definition stored (st : State) (sid at_ : Z) : bool :=
  existsb (fun s => (subject_id s =? sid) && (collected_at s =? at_)) (log st).

Definition present {A : Type} (o : option A) : bool :=
  match o with Some _ => true | None => false end.

Definition complete (m : RawMetrics) : bool :=
  present (follower_count m) && present (following_count m)
  && present (post_count m) && present (engagement_rate m).

Definition nonNegativeCount (o : option Z) : bool :=
  match o with Some n => 0 <=? n | None => true end.

Definition nonNegative (m : RawMetrics) : bool :=
  nonNegativeCount (follower_count m) && nonNegativeCount (following_count m)
  && nonNegativeCount (post_count m).

(** The time of the subject's last stored snapshot. *)
Fixpoint lastCollected (l : list Snapshot) (sid : Z) : option Z :=
  match l with
  | [] => None
  | s :: t =>
      match lastCollected t sid with
      | Some x => Some x
      | None => if subject_id s =? sid then Some (collected_at s) else None
      end
  end.

Definition strictlyAfterLast (st : State) (sid at_ : Z) : bool :=
  match lastCollected (log st) sid with
  | Some x => x <? at_
  | None => true
  end.

Definition markDirty (c : string) (d : list string) : list string :=
  if existsb (String.eqb c) d then d else c :: d.

Section Submit.
Variable categoryOf : Z -> string.

(** Modelled from the spec: [submit_snapshot] of the ingest interface (the
    Snapshot Validator), which is not among the sources.  A pair
    (subject_id, collected_at) that is already stored is accepted and
    changes nothing; otherwise the snapshot is rejected when a required
    field is missing, a count is negative or it is not strictly after the
    subject's last stored snapshot, and else appended, its subject's
    category marked dirty. *)
Definition submit_snapshot (st : State) (sid at_ : Z) (m : RawMetrics)
    : Outcome * State :=
  if stored st sid at_ then (accepted, st)
  else if negb (complete m) then (rejected missing_field, st)
  else if negb (nonNegative m) then (rejected negative_count, st)
  else if negb (strictlyAfterLast st sid at_) then (rejected out_of_order, st)
  else (accepted,
        {| log := (log st ++ [ {| subject_id := sid; collected_at := at_;
                                  raw_metrics := m |} ])%list;
           dirty := markDirty (categoryOf sid) (dirty st) |}).

End Submit.

End SnapshotValidator.

(** Sample inputs of the engine: the follower counts of a cohort of five,
    and a snapshot submitted to the empty store. *)
Definition techFollowers : list Q :=
  [100000; 500000; 1000000; 2000000; 3000000]%Q.

Definition sampleMetrics : SnapshotValidator.RawMetrics :=
  {| SnapshotValidator.follower_count := Some 300000;
     SnapshotValidator.following_count := Some 850;
     SnapshotValidator.post_count := Some 1240;
     SnapshotValidator.engagement_rate := Some 4.8%Q |}.

Definition sampleConfig : ScoreComposer.Config :=
  {| ScoreComposer.content_metrics := [("engagement_rate", 0.6); ("post_count", 0.4)];
     ScoreComposer.audience_metrics := [("follower_count", 0.7); ("following_count", 0.3)];
     ScoreComposer.brand_metrics := [("brand_alignment", 1)];
     ScoreComposer.content_weight := 0.4;
     ScoreComposer.audience_weight := 0.4;
     ScoreComposer.brand_weight := 0.2 |}%Q.

(** A percentile vector without [post_count]. *)
Definition sampleVector : ScoreComposer.PercentileVector :=
  [("engagement_rate", 62.5); ("follower_count", 50);
   ("following_count", 25); ("brand_alignment", 87)]%Q.

Definition emptyState : SnapshotValidator.State :=
  {| SnapshotValidator.log := []; SnapshotValidator.dirty := [] |}.

Definition anyCategory (sid : Z) : string := "Technology".

Definition stateAfterFirst : SnapshotValidator.State :=
  snd (SnapshotValidator.submit_snapshot anyCategory emptyState 7 100 sampleMetrics).

(** * The rest of the pages

    The handlers of the list page, what it renders, the colour of a score
    on the detail page, the link between the two pages and the class helper
    of the layout. *)

Definition SortField_eqb (f g : SortField) : bool :=
  match f, g with
  | by_overall_investment_score, by_overall_investment_score => true
  | by_follower_count, by_follower_count => true
  | by_engagement_rate, by_engagement_rate => true
  | by_growth_rate, by_growth_rate => true
  | _, _ => false
  end.

(** [handleSort]: a click on the header of column [field]. *)
Definition handleSort (field : SortField) (q : Query) : Query :=
  if SortField_eqb field (sortField q) then
    {| searchTerm := searchTerm q; sortField := sortField q;
       sortDirection := match sortDirection q with asc => desc | desc => asc end;
       filters := filters q |}
  else
    {| searchTerm := searchTerm q; sortField := field;
       sortDirection := desc; filters := filters q |}.

(** [setSearchTerm(e.target.value)]: typing in the search box. *)
Definition setSearchTerm (value : string) (q : Query) : Query :=
  {| searchTerm := Some value; sortField := sortField q;
     sortDirection := sortDirection q; filters := filters q |}.

(** [handleFilterChange]: the input called [name] now holds [value].  A
    name other than the five the page reads adds a key that no code looks
    at. *)
Definition handleFilterChange (name value : string) (prev : Filters) : Filters :=
  if String.eqb name "category" then
    {| f_category := Some value; minFollowers := minFollowers prev;
       maxFollowers := maxFollowers prev; minScore := minScore prev;
       maxScore := maxScore prev |}
  else if String.eqb name "minFollowers" then
    {| f_category := f_category prev; minFollowers := Some value;
       maxFollowers := maxFollowers prev; minScore := minScore prev;
       maxScore := maxScore prev |}
  else if String.eqb name "maxFollowers" then
    {| f_category := f_category prev; minFollowers := minFollowers prev;
       maxFollowers := Some value; minScore := minScore prev;
       maxScore := maxScore prev |}
  else if String.eqb name "minScore" then
    {| f_category := f_category prev; minFollowers := minFollowers prev;
       maxFollowers := maxFollowers prev; minScore := Some value;
       maxScore := maxScore prev |}
  else if String.eqb name "maxScore" then
    {| f_category := f_category prev; minFollowers := minFollowers prev;
       maxFollowers := maxFollowers prev; minScore := minScore prev;
       maxScore := Some value |}
  else prev.

Definition setFilters (fl : Filters) (q : Query) : Query :=
  {| searchTerm := searchTerm q; sortField := sortField q;
     sortDirection := sortDirection q; filters := fl |}.

(** [resetFilters]: the Reset button. *)
Definition resetFilters (q : Query) : Query := setFilters noFilters q.

(** The body of the table: the rows, or the line "No influencers found
    matching your criteria." *)
Inductive TableBody :=
| Rows (rows : list Influencer)
| NoInfluencersFound.

Definition tableBody (influencers : list Influencer) : TableBody :=
  if (0 <? List.length influencers)%nat then Rows influencers
  else NoInfluencersFound.

(** The filter chain of [fetchInfluencers] as one test on a subject. *)
Definition setAnd (v : JS.value) (p : string -> Influencer -> bool)
    (inf : Influencer) : bool :=
  match v with
  | Some s => if JS.truthy v then p s inf else true
  | None => true
  end.

Definition keeps (q : Query) (inf : Influencer) : bool :=
  setAnd (searchTerm q) matchesSearch inf
  && setAnd (f_category (filters q)) (fun v i => String.eqb (category i) v) inf
  && setAnd (minFollowers (filters q))
       (fun v i => JS.ge (follower_count i) (JS.parseInt v)) inf
  && setAnd (maxFollowers (filters q))
       (fun v i => JS.le (follower_count i) (JS.parseInt v)) inf
  && setAnd (minScore (filters q))
       (fun v i => JS.ge (overall_investment_score i) (JS.parseInt v)) inf
  && setAnd (maxScore (filters q))
       (fun v i => JS.le (overall_investment_score i) (JS.parseInt v)) inf.

(** The query with the search box and every filter empty. *)
Definition unfiltered (q : Query) : Query :=
  setSearchTerm "" (resetFilters q).

(** No two subjects of the list have the same value in column [f]. *)
Definition distinctIn (f : SortField) (l : list Influencer) : Prop :=
  StronglySorted (fun a b => ~ (field f a == field f b)%Q) l.

(** [getScoreColor] of the detail page. *)
Inductive ScoreColor := bg_green_500 | bg_blue_500 | bg_yellow_500 | bg_red_500.

Definition getScoreColor (score : Q) : ScoreColor :=
  if Qle_bool 80 score then bg_green_500
  else if Qle_bool 60 score then bg_blue_500
  else if Qle_bool 40 score then bg_yellow_500
  else bg_red_500.

(** How strong a colour is: red, yellow, blue, green. *)
Definition colorLevel (c : ScoreColor) : Z :=
  match c with
  | bg_red_500 => 0
  | bg_yellow_500 => 1
  | bg_blue_500 => 2
  | bg_green_500 => 3
  end.

(** A whole number in a template literal. *)
Definition toString (n : Z) : string := NilEmpty.string_of_int (Z.to_int n).

(** The target of the link of a row, [`/influencers/${influencer.id}`]. *)
Definition linkTo (inf : Influencer) : string :=
  "/influencers/" ++ toString (id inf).

(** The text holds a [/], which ends a segment of a path. *)
Fixpoint hasSlash (s : string) : bool :=
  match s with
  | EmptyString => false
  | String c t => Ascii.eqb c "/" || hasSlash t
  end.

(** [id: parseInt(id)] of the detail page, [id] being the segment of the
    path that the route [influencers/:id] binds. *)
Definition detailId (param : string) : option Z := JS.parseInt param.

(** [Array.prototype.join] on strings. *)
Fixpoint join (sep : string) (l : list string) : string :=
  match l with
  | [] => ""
  | a :: t => match t with
              | [] => a
              | _ :: _ => a ++ sep ++ join sep t
              end
  end.

(** [classes.filter(Boolean)] *)
Fixpoint filterBoolean (classes : list JS.value) : list string :=
  match classes with
  | [] => []
  | v :: t => match v with
              | Some s => if JS.truthy v then s :: filterBoolean t
                          else filterBoolean t
              | None => filterBoolean t
              end
  end.

(** [classNames] of the layout. *)
Definition classNames (classes : list JS.value) : string :=
  join " " (filterBoolean classes).

(** [s.split(' ')], and the class names of a [className] text: its pieces
    between spaces. *)
Fixpoint split (s : string) : list string :=
  match s with
  | EmptyString => [EmptyString]
  | String c t =>
      if Ascii.eqb c " " then EmptyString :: split t
      else match split t with
           | h :: r => String c h :: r
           | [] => [String c EmptyString]
           end
  end.

Definition nonEmpty (s : string) : bool :=
  match s with EmptyString => false | String _ _ => true end.

Definition classList (className : string) : list string :=
  filter nonEmpty (split className).

Definition valueClasses (v : JS.value) : list string :=
  match v with Some s => classList s | None => [] end.

(** * Properties of the pages *)

(** ** Sample runs *)

Example parseInt_plain : JS.parseInt "500000" = Some 500000.
Proof. reflexivity. Qed.

Example parseInt_float_text : JS.parseInt "1e6" = Some 1.
Proof. reflexivity. Qed.

Example parseInt_hex : JS.parseInt " -0x1F" = Some (-31).
Proof. reflexivity. Qed.

Example parseInt_nan : JS.parseInt "abc" = None.
Proof. reflexivity. Qed.

Example includes_infix : JS.includes (JS.toLowerCase "Tech Expert") "expert" = true.
Proof. reflexivity. Qed.

Example initial_page :
  map id (fetchInfluencers initialQuery) = [1; 2; 3; 4; 5; 6; 7; 8; 9; 10; 11; 12].
Proof. reflexivity. Qed.

Example by_growth_page :
  map id (fetchInfluencers
            {| searchTerm := Some "E"; sortField := by_growth_rate;
               sortDirection := asc;
               filters := {| f_category := None; minFollowers := Some "500000";
                             maxFollowers := None; minScore := None;
                             maxScore := Some "90" |} |})
  = [5; 2; 4; 11; 3; 12; 10].
Proof. reflexivity. Qed.

Example normalize_category_cohort :
  forall global : list Q,
    CohortNormalizer.normalize 5 global techFollowers 1000000
    = (CohortNormalizer.percentile techFollowers 1000000, false).
Proof. reflexivity. Qed.

Example normalize_small_cohort :
  CohortNormalizer.normalize 5 techFollowers [500000; 1000000]%Q 1000000
  = (CohortNormalizer.percentile techFollowers 1000000, true).
Proof. reflexivity. Qed.

Example compose_sample :
  ScoreComposer.compose sampleConfig sampleVector
  = ({| ScoreComposer.content_quality := 63;
        ScoreComposer.audience_quality := 43;
        ScoreComposer.brand_alignment := 87 |}, 60).
Proof. reflexivity. Qed.

Example winsorize_small_delta :
  TrendCalculator.winsorize 3 20000 25000 = (25000%Q, false).
Proof. reflexivity. Qed.

Example submit_first :
  SnapshotValidator.submit_snapshot anyCategory emptyState 7 100 sampleMetrics
  = (SnapshotValidator.accepted,
     {| SnapshotValidator.log :=
          [ {| SnapshotValidator.subject_id := 7;
               SnapshotValidator.collected_at := 100;
               SnapshotValidator.raw_metrics := sampleMetrics |} ];
        SnapshotValidator.dirty := ["Technology"] |}).
Proof. reflexivity. Qed.

Example submit_out_of_order :
  SnapshotValidator.submit_snapshot anyCategory stateAfterFirst 7 50 sampleMetrics
  = (SnapshotValidator.rejected SnapshotValidator.out_of_order, stateAfterFirst).
Proof. reflexivity. Qed.

Example submit_negative_count :
  SnapshotValidator.submit_snapshot anyCategory stateAfterFirst 7 200
    {| SnapshotValidator.follower_count := Some (-1);
       SnapshotValidator.following_count := Some 850;
       SnapshotValidator.post_count := Some 1240;
       SnapshotValidator.engagement_rate := Some 4.8%Q |}
  = (SnapshotValidator.rejected SnapshotValidator.negative_count, stateAfterFirst).
Proof. reflexivity. Qed.

Example submit_missing_field :
  SnapshotValidator.submit_snapshot anyCategory stateAfterFirst 7 200
    {| SnapshotValidator.follower_count := Some 300000;
       SnapshotValidator.following_count := None;
       SnapshotValidator.post_count := Some 1240;
       SnapshotValidator.engagement_rate := Some 4.8%Q |}
  = (SnapshotValidator.rejected SnapshotValidator.missing_field, stateAfterFirst).
Proof. reflexivity. Qed.

(** ** The stable sort *)

Section SortFacts.
Context {A : Type} (cmp : A -> A -> Q).
Let le (a b : A) : Prop := (cmp a b <= 0)%Q.

Lemma insert_perm (x : A) (l : list A) : Permutation (x :: l) (insert cmp x l).
Proof.
  induction l as [|y t IH]; simpl.
  - apply Permutation_refl.
  - destruct (Qle_bool (cmp x y) 0).
    + apply Permutation_refl.
    + eapply perm_trans; [apply perm_swap|].
      apply perm_skip, IH.
Qed.

Lemma sort_perm (l : list A) : Permutation l (sort cmp l).
Proof.
  induction l as [|x t IH]; simpl.
  - apply perm_nil.
  - eapply perm_trans; [apply perm_skip, IH | apply insert_perm].
Qed.

Lemma In_sort (x : A) (l : list A) : In x (sort cmp l) <-> In x l.
Proof.
  split; intro H.
  - eapply Permutation_in; [apply Permutation_sym, sort_perm | exact H].
  - eapply Permutation_in; [apply sort_perm | exact H].
Qed.

Hypothesis le_total : forall a b, le a b \/ le b a.
Hypothesis le_trans : forall a b c, le a b -> le b c -> le a c.

Variable P : A -> A -> Prop.

(** Ordered by the comparator, and by [P] where the comparator ties. *)
Let R (a b : A) : Prop := le a b /\ (le b a -> P a b).

Lemma insert_stable (x : A) (l : list A) :
  Forall (P x) l -> StronglySorted R l -> StronglySorted R (insert cmp x l).
Proof.
  induction l as [|y t IH]; intros HP HS; simpl.
  - constructor; constructor.
  - inversion HS as [|? ? HSt HRy]; subst.
    inversion HP as [|? ? HPy HPt]; subst.
    destruct (Qle_bool (cmp x y) 0) eqn:E.
    + apply Qle_bool_iff in E.
      constructor; [exact HS|].
      constructor.
      * split; [exact E | intros _; exact HPy].
      * rewrite Forall_forall in HRy, HPt |- *.
        intros z Hz. split.
        -- apply le_trans with y; [exact E | apply (HRy z Hz)].
        -- intros _. apply HPt, Hz.
    + assert (Hn : ~ le x y).
      { intro H. apply Qle_bool_iff in H. congruence. }
      constructor; [apply IH; assumption|].
      eapply Permutation_Forall; [apply insert_perm|].
      constructor; [|exact HRy].
      split.
      * destruct (le_total x y); [contradiction | assumption].
      * intro H; contradiction.
Qed.

Lemma sort_stable (l : list A) :
  StronglySorted P l -> StronglySorted R (sort cmp l).
Proof.
  induction 1 as [|x t HS IH HP]; simpl.
  - constructor.
  - apply insert_stable; [|exact IH].
    eapply Permutation_Forall; [apply sort_perm | exact HP].
Qed.

End SortFacts.

Lemma StronglySorted_weaken {A : Type} (R R' : A -> A -> Prop) (l : list A) :
  (forall a b, R a b -> R' a b) -> StronglySorted R l -> StronglySorted R' l.
Proof.
  intros HR. induction 1 as [|x t HS IH Hx]; constructor; [exact IH|].
  rewrite Forall_forall in Hx |- *. intros z Hz. apply HR, Hx, Hz.
Qed.

Lemma StronglySorted_filter {A : Type} (R : A -> A -> Prop) (p : A -> bool) (l : list A) :
  StronglySorted R l -> StronglySorted R (filter p l).
Proof.
  induction 1 as [|x t HS IH HR]; simpl.
  - constructor.
  - destruct (p x); [|exact IH].
    constructor; [exact IH|].
    rewrite Forall_forall in HR |- *.
    intros z Hz. apply filter_In in Hz. apply HR, Hz.
Qed.

Lemma StronglySorted_before {A : Type} (R : A -> A -> Prop) (l : list A) (a b : A) :
  StronglySorted R l -> before l a b -> R a b.
Proof.
  intros HS (l1 & l2 & l3 & ->).
  induction l1 as [|x l1 IH]; simpl in HS.
  - inversion HS as [|? ? _ HR]; subst.
    rewrite Forall_forall in HR. apply HR.
    apply in_or_app. right. left. reflexivity.
  - inversion HS; subst. apply IH. assumption.
Qed.

(** ** The comparator *)

Lemma comparator_total (f : SortField) (d : SortDirection) (a b : Influencer) :
  (comparator f d a b <= 0)%Q \/ (comparator f d b a <= 0)%Q.
Proof.
  unfold comparator.
  destruct d; destruct (Qlt_le_dec (field f a) (field f b)); (left; lra) || (right; lra).
Qed.

Lemma comparator_trans (f : SortField) (d : SortDirection) (a b c : Influencer) :
  (comparator f d a b <= 0)%Q -> (comparator f d b c <= 0)%Q ->
  (comparator f d a c <= 0)%Q.
Proof. unfold comparator. destruct d; intros; lra. Qed.

Lemma comparator_tie (f : SortField) (d : SortDirection) (a b : Influencer) :
  (field f a == field f b)%Q -> (comparator f d b a <= 0)%Q.
Proof. unfold comparator. destruct d; intros; lra. Qed.

(** ** The filter chain *)

Lemma truthy_active (v : JS.value) (s : string) :
  v = Some s -> (JS.truthy v = true <-> active v s).
Proof.
  intros ->. unfold active. destruct s; simpl; split.
  - discriminate.
  - intros [_ H]. congruence.
  - intros _. split; [reflexivity | discriminate].
  - reflexivity.
Qed.

Lemma filterIf_In (v : JS.value) (p : string -> Influencer -> bool)
    (Pp : string -> Influencer -> Prop) (l : list Influencer) (inf : Influencer) :
  (forall s, p s inf = true <-> Pp s inf) ->
  (In inf (filterIf v p l) <-> In inf l /\ (forall s, active v s -> Pp s inf)).
Proof.
  intros Hp. unfold filterIf. destruct v as [s|].
  - destruct (JS.truthy (Some s)) eqn:E.
    + rewrite filter_In, Hp. apply (truthy_active _ s eq_refl) in E.
      split; intros [Hin H]; split; try exact Hin.
      * intros s' [Hs' _]. congruence.
      * apply H, E.
    + split; [|tauto]. intros Hin. split; [exact Hin|].
      intros s' Hs'. assert (s' = s) as -> by (destruct Hs'; congruence).
      apply (truthy_active _ s eq_refl) in Hs'. congruence.
  - split; [|tauto]. intros Hin. split; [exact Hin|].
    intros s [Hs _]. discriminate.
Qed.

Lemma filterIf_sorted (R : Influencer -> Influencer -> Prop) (v : JS.value)
    (p : string -> Influencer -> bool) (l : list Influencer) :
  StronglySorted R l -> StronglySorted R (filterIf v p l).
Proof.
  intros H. unfold filterIf. destruct v; [|exact H].
  destruct (JS.truthy _); [apply StronglySorted_filter|]; exact H.
Qed.

Lemma matchesSearch_iff (s : string) (inf : Influencer) :
  matchesSearch s inf = true <-> textMatch s inf.
Proof.
  unfold matchesSearch, textMatch. rewrite !orb_true_iff. tauto.
Qed.

Lemma ge_atLeast (x : Q) (s : string) :
  JS.ge x (JS.parseInt s) = true <-> atLeast x s.
Proof.
  unfold JS.ge, atLeast. destruct (JS.parseInt s) as [n|].
  - rewrite Qle_bool_iff. split.
    + intros H. exists n. split; [reflexivity | exact H].
    + intros (m & Hm & H). congruence.
  - split; [discriminate|]. intros (m & Hm & _). discriminate.
Qed.

Lemma le_atMost (x : Q) (s : string) :
  JS.le x (JS.parseInt s) = true <-> atMost x s.
Proof.
  unfold JS.le, atMost. destruct (JS.parseInt s) as [n|].
  - rewrite Qle_bool_iff. split.
    + intros H. exists n. split; [reflexivity | exact H].
    + intros (m & Hm & H). congruence.
  - split; [discriminate|]. intros (m & Hm & _). discriminate.
Qed.

(** ** The list query *)

Lemma fetch_In (l : list Influencer) (q : Query) (inf : Influencer) :
  In inf (fetchInfluencersFrom l q) <-> In inf l /\ satisfies q inf.
Proof.
  unfold fetchInfluencersFrom, satisfies.
  rewrite In_sort.
  rewrite (filterIf_In _ _ (fun s i => atMost (overall_investment_score i) s))
    by (intros; apply le_atMost).
  rewrite (filterIf_In _ _ (fun s i => atLeast (overall_investment_score i) s))
    by (intros; apply ge_atLeast).
  rewrite (filterIf_In _ _ (fun s i => atMost (follower_count i) s))
    by (intros; apply le_atMost).
  rewrite (filterIf_In _ _ (fun s i => atLeast (follower_count i) s))
    by (intros; apply ge_atLeast).
  rewrite (filterIf_In _ _ (fun s i => category i = s))
    by (intros; apply String.eqb_eq).
  rewrite (filterIf_In _ _ textMatch) by (intros; apply matchesSearch_iff).
  tauto.
Qed.

(** The conditions of a query read the text columns, the followers and
    the score of a subject, and nothing else. *)
Lemma satisfies_same_columns (q : Query) (a b : Influencer) :
  username a = username b -> full_name a = full_name b ->
  category a = category b -> follower_count a = follower_count b ->
  overall_investment_score a = overall_investment_score b ->
  satisfies q a -> satisfies q b.
Proof.
  intros Hu Hf Hc Hn Hs. unfold satisfies, textMatch.
  rewrite Hu, Hf, Hc, Hn, Hs. tauto.
Qed.

(** C9, as the page implements it: a subject is listed if and only if it is
    in the fetched list and meets every filter that is set: the free-text
    filter over username, full name and category, the category filter, and
    the bounds on followers and on score, the bounds being read by
    [parseInt].  There is no filter on the growth rate. *)
Theorem listed_iff_satisfies :
  forall (l : list Influencer) (q : Query) (inf : Influencer),
    In inf (fetchInfluencersFrom l q) <-> In inf l /\ satisfies q inf.
Proof. exact fetch_In. Qed.

(** C9, as stated, fails: a search for "expert" lists the subject
    [tech_influencer], which matches by its full name only, neither by
    handle nor by category; and no query tells apart two subjects that
    differ in growth rate only, so the growth rate is not filtered on. *)
Lemma search_reaches_full_name :
  (In techInfluencer (fetchInfluencers expertQuery)
   /\ handleOrCategoryMatch "expert" techInfluencer = false)
  /\ (forall q : Query,
        In slowTwin (fetchInfluencersFrom [slowTwin; fastTwin] q)
        <-> In fastTwin (fetchInfluencersFrom [slowTwin; fastTwin] q)).
Proof.
  split; [split; [left; reflexivity | reflexivity]|].
  intros q. rewrite !fetch_In. split; intros [_ H]; split.
  - right; left; reflexivity.
  - revert H. apply satisfies_same_columns; reflexivity.
  - left; reflexivity.
  - revert H. apply satisfies_same_columns; reflexivity.
Qed.

(** C10: an empty string in [searchTerm] or in a field of [filters] gives
    the result that the same query gives with that value absent. *)
Theorem empty_filter_is_identity :
  forall (l : list Influencer) (sf : SortField) (sd : SortDirection)
         (st c mnF mxF mnS mxS : JS.value),
    let run st c mnF mxF mnS mxS :=
      fetchInfluencersFrom l
        {| searchTerm := st; sortField := sf; sortDirection := sd;
           filters := {| f_category := c; minFollowers := mnF;
                         maxFollowers := mxF; minScore := mnS;
                         maxScore := mxS |} |} in
    run (Some "") c mnF mxF mnS mxS = run None c mnF mxF mnS mxS
    /\ run st (Some "") mnF mxF mnS mxS = run st None mnF mxF mnS mxS
    /\ run st c (Some "") mxF mnS mxS = run st c None mxF mnS mxS
    /\ run st c mnF (Some "") mnS mxS = run st c mnF None mnS mxS
    /\ run st c mnF mxF (Some "") mxS = run st c mnF mxF None mxS
    /\ run st c mnF mxF mnS (Some "") = run st c mnF mxF mnS None.
Proof.
  intros. unfold run, fetchInfluencersFrom; simpl.
  repeat split; reflexivity.
Qed.

Lemma sorted_perm_unique {A : Type} (R : A -> A -> Prop) :
  (forall a b, R a b -> R b a -> False) ->
  forall l1 l2 : list A,
    StronglySorted R l1 -> StronglySorted R l2 -> Permutation l1 l2 -> l1 = l2.
Proof.
  intros Hasym. induction l1 as [|x t1 IH]; intros l2 H1 H2 Hp.
  - apply Permutation_nil in Hp. congruence.
  - destruct l2 as [|y t2].
    + apply Permutation_sym, Permutation_nil in Hp. discriminate.
    + inversion H1 as [|? ? H1t H1x]; subst.
      inversion H2 as [|? ? H2t H2y]; subst.
      assert (Hxy : x = y).
      { assert (Hy : In y (x :: t1)).
        { eapply Permutation_in; [apply Permutation_sym, Hp | left; reflexivity]. }
        assert (Hx : In x (y :: t2)).
        { eapply Permutation_in; [apply Hp | left; reflexivity]. }
        destruct Hy as [Hy|Hy]; [exact Hy|].
        destruct Hx as [Hx|Hx]; [congruence|].
        rewrite Forall_forall in H1x, H2y.
        destruct (Hasym x y (H1x y Hy) (H2y x Hx)). }
      subst y. f_equal. apply IH; try assumption.
      eapply Permutation_cons_inv, Hp.
Qed.

Lemma mockInfluencers_idAscending : idAscending mockInfluencers.
Proof.
  unfold idAscending, mockInfluencers.
  repeat (constructor; [|repeat (constructor; [reflexivity|]); constructor]).
  constructor.
Qed.

(** The result is ordered by the comparator, and where it ties, by the
    order of the fetched list. *)
Lemma fetch_order (l : list Influencer) (q : Query) (a b : Influencer) :
  idAscending l ->
  before (fetchInfluencersFrom l q) a b ->
  (comparator (sortField q) (sortDirection q) a b <= 0)%Q
  /\ ((field (sortField q) a == field (sortField q) b)%Q -> id a < id b).
Proof.
  intros Hl Hb. unfold fetchInfluencersFrom in Hb.
  eapply StronglySorted_before in Hb.
  2:{ apply (sort_stable _ (comparator_total _ _) (comparator_trans _ _)
               (fun a b => id a < id b)).
      repeat apply filterIf_sorted. exact Hl. }
  destruct Hb as [Hle Hb]. split; [exact Hle|].
  intros Hk. apply Hb. apply comparator_tie, Hk.
Qed.

(** On the built-in list, ties are listed in ascending [id]. *)
Lemma fetchInfluencers_ties_by_id (q : Query) (a b : Influencer) :
  before (fetchInfluencers q) a b ->
  (field (sortField q) a == field (sortField q) b)%Q -> id a < id b.
Proof.
  intros Hb. apply (fetch_order _ q a b mockInfluencers_idAscending Hb).
Qed.

Lemma byColumnThenId_asym (q : Query) (a b : Influencer) :
  byColumnThenId q a b -> byColumnThenId q b a -> False.
Proof.
  unfold byColumnThenId. destruct (sortDirection q);
    intros [H1|[H1 H1']] [H2|[H2 H2']]; try lra; lia.
Qed.

(** For a list fetched in ascending [id]: the result is ordered by the
    column and, where the column ties, by ascending [id]; and it is the
    only arrangement of its rows that is. *)
Lemma fetch_by_column_then_id (l : list Influencer) (q : Query) :
  idAscending l ->
  StronglySorted (byColumnThenId q) (fetchInfluencersFrom l q)
  /\ (forall a b,
        before (fetchInfluencersFrom l q) a b ->
        (field (sortField q) a == field (sortField q) b)%Q -> id a < id b)
  /\ (forall r,
        Permutation r (fetchInfluencersFrom l q) ->
        StronglySorted (byColumnThenId q) r -> r = fetchInfluencersFrom l q).
Proof.
  intros Hl.
  assert (HS : StronglySorted (byColumnThenId q) (fetchInfluencersFrom l q)).
  { unfold fetchInfluencersFrom.
    eapply StronglySorted_weaken;
      [| apply (sort_stable _ (comparator_total _ _) (comparator_trans _ _)
                  (fun a b => id a < id b));
         repeat apply filterIf_sorted; exact Hl ].
    cbv beta. unfold comparator, byColumnThenId. intros a b [H1 H2].
    destruct (sortDirection q).
    - destruct (Qlt_le_dec (field (sortField q) a) (field (sortField q) b))
        as [Hlt|Hge]; [left; exact Hlt|].
      right. split; [lra | apply H2; lra].
    - destruct (Qlt_le_dec (field (sortField q) b) (field (sortField q) a))
        as [Hlt|Hge]; [left; exact Hlt|].
      right. split; [lra | apply H2; lra]. }
  split; [exact HS|]. split.
  - intros a b Hb. apply (fetch_order l q a b Hl Hb).
  - intros r Hp Hr.
    apply (sorted_perm_unique (byColumnThenId q) (byColumnThenId_asym q));
      assumption.
Qed.

(** C5: whatever the query, the list of the page is ordered by the sort
    column in the sort direction and, where two subjects have equal values
    in that column, by ascending [id]: of two listed subjects with equal
    sort keys the upper one has the smaller [id].  The list is the only
    arrangement of its rows in that order, so the same query always shows
    the same ordering.  The same holds for every list fetched in ascending
    [id], as the built-in list is. *)
Theorem ties_listed_by_id :
  forall q : Query,
    StronglySorted (byColumnThenId q) (fetchInfluencers q)
    /\ (forall a b,
          before (fetchInfluencers q) a b ->
          (field (sortField q) a == field (sortField q) b)%Q -> id a < id b)
    /\ (forall r,
          Permutation r (fetchInfluencers q) ->
          StronglySorted (byColumnThenId q) r -> r = fetchInfluencers q)
    /\ (forall l,
          idAscending l ->
          StronglySorted (byColumnThenId q) (fetchInfluencersFrom l q)
          /\ (forall a b,
                before (fetchInfluencersFrom l q) a b ->
                (field (sortField q) a == field (sortField q) b)%Q ->
                id a < id b)
          /\ (forall r,
                Permutation r (fetchInfluencersFrom l q) ->
                StronglySorted (byColumnThenId q) r ->
                r = fetchInfluencersFrom l q)).
Proof.
  intros q.
  destruct (fetch_by_column_then_id mockInfluencers q mockInfluencers_idAscending)
    as (H1 & H2 & H3).
  split; [exact H1|]. split; [exact H2|]. split; [exact H3|].
  intros l Hl. apply fetch_by_column_then_id, Hl.
Qed.

Lemma ties_listed_by_id_witness :
  idAscending [tiedLow; tiedHigh]
  /\ before (fetchInfluencersFrom [tiedLow; tiedHigh] initialQuery) tiedLow tiedHigh
  /\ (field (sortField initialQuery) tiedLow == field (sortField initialQuery) tiedHigh)%Q
  /\ id tiedLow < id tiedHigh.
Proof.
  assert (H1 : idAscending [tiedLow; tiedHigh]).
  { repeat constructor. }
  assert (H2 : before (fetchInfluencersFrom [tiedLow; tiedHigh] initialQuery)
                 tiedLow tiedHigh).
  { exists [], [], []. reflexivity. }
  assert (H3 : (field (sortField initialQuery) tiedLow
                == field (sortField initialQuery) tiedHigh)%Q).
  { reflexivity. }
  split; [exact H1 | split; [exact H2 | split; [exact H3 |]]].
  exact (proj1 (proj2 (proj2 (proj2 (proj2 (ties_listed_by_id initialQuery)))
                         [tiedLow; tiedHigh] H1))
           tiedLow tiedHigh H2 H3).
Defined.

(** ** The growth badge *)

(** C4: the badge of a row is [high] exactly when the growth rate is above
    5, [positive] exactly when it is above 0 and at most 5, and [declining]
    exactly when it is at most 0; the arrow of the detail page points down
    exactly in the last case. *)
Theorem momentum_by_growth_rate :
  forall inf : Influencer,
    (momentum inf = high <-> (5 < growth_rate inf)%Q)
    /\ (momentum inf = positive <-> (0 < growth_rate inf /\ growth_rate inf <= 5)%Q)
    /\ (momentum inf = declining <-> (growth_rate inf <= 0)%Q)
    /\ (growthArrow inf = ArrowDownIcon <-> (growth_rate inf <= 0)%Q).
Proof.
  intros inf. unfold momentum, growthArrow, JS.gt.
  destruct (Qle_bool (growth_rate inf) 5) eqn:E5;
    destruct (Qle_bool (growth_rate inf) 0) eqn:E0; simpl;
    try (apply Qle_bool_iff in E5); try (apply Qle_bool_iff in E0);
    try (assert (~ (growth_rate inf <= 5)%Q)
           by (intro H; apply Qle_bool_iff in H; congruence));
    try (assert (~ (growth_rate inf <= 0)%Q)
           by (intro H; apply Qle_bool_iff in H; congruence));
    repeat split; intros; try discriminate; try lra; try reflexivity.
Qed.

(** * Properties of the scoring engine *)

(** ** Score Composer *)

Lemma clamp_inRange (z : Z) : ScoreComposer.inRange (ScoreComposer.clamp z).
Proof. unfold ScoreComposer.inRange, ScoreComposer.clamp. lia. Qed.

Lemma lookup_valid (m : string) (pv : ScoreComposer.PercentileVector) (p : Q) :
  ScoreComposer.validVector pv -> ScoreComposer.lookup m pv = Some p ->
  (0 <= p <= 100)%Q.
Proof.
  induction 1 as [|[k x] t Hx _ IH]; simpl; [discriminate|].
  destruct (String.eqb k m); [|exact IH].
  intros E; inversion E; subst. exact Hx.
Qed.

Lemma present_bounds (w : ScoreComposer.WeightMap) (pv : ScoreComposer.PercentileVector) :
  ScoreComposer.validVector pv -> ScoreComposer.validWeights w ->
  (0 <= ScoreComposer.presentWeight w pv
   /\ 0 <= ScoreComposer.presentSum w pv
   /\ ScoreComposer.presentSum w pv <= 100 * ScoreComposer.presentWeight w pv)%Q.
Proof.
  intros Hpv. induction 1 as [|[m wt] t Hwt _ IH]; simpl.
  - repeat split; lra.
  - simpl in Hwt. destruct IH as (IH1 & IH2 & IH3).
    destruct (ScoreComposer.lookup m pv) as [p|] eqn:E; [|tauto].
    destruct (lookup_valid _ _ _ Hpv E) as [Hp0 Hp1].
    assert (0 <= wt * p)%Q by (apply Qmult_le_0_compat; assumption).
    assert (0 <= wt * (100 - p))%Q by (apply Qmult_le_0_compat; lra).
    repeat split; lra.
Qed.

(** On valid input the weighted sum is a percentile itself, so the
    rounded value needs no clamping. *)
Lemma weightedSum_range (w : ScoreComposer.WeightMap) (pv : ScoreComposer.PercentileVector) :
  ScoreComposer.validVector pv -> ScoreComposer.validWeights w ->
  (0 <= ScoreComposer.weightedSum w pv <= 100)%Q.
Proof.
  intros Hpv Hw. destruct (present_bounds w pv Hpv Hw) as (H1 & H2 & H3).
  unfold ScoreComposer.weightedSum.
  destruct (Qeq_bool (ScoreComposer.presentWeight w pv) 0) eqn:E; [lra|].
  apply Qeq_bool_neq in E.
  assert (Hpos : (0 < ScoreComposer.presentWeight w pv)%Q).
  { destruct (Qlt_le_dec 0 (ScoreComposer.presentWeight w pv)) as [Hlt|Hle];
      [exact Hlt|]. exfalso. apply E. lra. }
  split.
  - apply Qle_shift_div_l; [exact Hpos|lra].
  - apply Qle_shift_div_r; [exact Hpos|lra].
Qed.

Lemma round_range (x : Q) :
  (0 <= x <= 100)%Q -> ScoreComposer.inRange (ScoreComposer.round x).
Proof.
  intros [H0 H1]. unfold ScoreComposer.inRange, ScoreComposer.round. split.
  - change 0 with (Qfloor 0). apply Qfloor_resp_le. lra.
  - change 100 with (Qfloor (100 + (1 # 2))). apply Qfloor_resp_le. lra.
Qed.

Lemma clamp_idle_on_valid_input (w : ScoreComposer.WeightMap)
    (pv : ScoreComposer.PercentileVector) :
  ScoreComposer.validVector pv -> ScoreComposer.validWeights w ->
  ScoreComposer.clamp (ScoreComposer.round (ScoreComposer.weightedSum w pv))
  = ScoreComposer.round (ScoreComposer.weightedSum w pv).
Proof.
  intros Hpv Hw.
  pose proof (round_range _ (weightedSum_range w pv Hpv Hw)) as H.
  unfold ScoreComposer.inRange in H. unfold ScoreComposer.clamp. lia.
Qed.

(** C1: whatever the percentile vector and the weights, the three SubScores
    and the OverallScore that the composer returns lie in [0,100]. *)
Theorem composed_scores_in_range :
  forall (c : ScoreComposer.Config) (pv : ScoreComposer.PercentileVector),
    ScoreComposer.inRange (ScoreComposer.content_quality (fst (ScoreComposer.compose c pv)))
    /\ ScoreComposer.inRange (ScoreComposer.audience_quality (fst (ScoreComposer.compose c pv)))
    /\ ScoreComposer.inRange (ScoreComposer.brand_alignment (fst (ScoreComposer.compose c pv)))
    /\ ScoreComposer.inRange (snd (ScoreComposer.compose c pv)).
Proof.
  intros c pv. unfold ScoreComposer.compose, ScoreComposer.subScores,
    ScoreComposer.overallScore; simpl.
  repeat split; apply clamp_inRange.
Qed.

(** ** Trend Calculator *)

Lemma winsorize_above (multiple median delta : Q) :
  (multiple * median < delta)%Q ->
  TrendCalculator.winsorize multiple median delta = ((multiple * median)%Q, true).
Proof.
  intros H. unfold TrendCalculator.winsorize.
  destruct (Qle_bool delta (multiple * median)) eqn:E; [|reflexivity].
  apply Qle_bool_iff in E. lra.
Qed.

Lemma winsorize_within (multiple median delta : Q) :
  (delta <= multiple * median)%Q ->
  TrendCalculator.winsorize multiple median delta = (delta, false).
Proof.
  intros H. unfold TrendCalculator.winsorize.
  apply Qle_bool_iff in H. rewrite H. reflexivity.
Qed.

Lemma deltas_length (window : list Q) :
  List.length (TrendCalculator.deltas window) = pred (List.length window).
Proof.
  induction window as [|a t IH]; [reflexivity|].
  destruct t as [|b t']; [reflexivity|].
  cbn [TrendCalculator.deltas List.length pred] in *. rewrite IH. reflexivity.
Qed.

Lemma deltas_nth (window : list Q) :
  forall (i : nat) (a b : Q),
    nth_error window i = Some a -> nth_error window (S i) = Some b ->
    nth_error (TrendCalculator.deltas window) i = Some (b - a)%Q.
Proof.
  induction window as [|x t IH]; intros i a b Ha Hb.
  - destruct i; discriminate.
  - destruct t as [|y t']; [destruct i as [|[|i]]; discriminate|].
    destruct i as [|i].
    + cbn in Ha, Hb. inversion Ha; inversion Hb; subst. reflexivity.
    + cbn [TrendCalculator.deltas nth_error]. apply IH; assumption.
Qed.

Lemma dampened_pointwise (multiple median : Q) (ds : list Q) :
  Forall2
    (fun delta r =>
       ((multiple * median < delta)%Q -> r = ((multiple * median)%Q, true))
       /\ ((delta <= multiple * median)%Q -> r = (delta, false)))
    ds (map (TrendCalculator.winsorize multiple median) ds).
Proof.
  induction ds as [|d t IH]; simpl; constructor; [|exact IH].
  split; [apply winsorize_above | apply winsorize_within].
Qed.

Lemma flagged_iff (multiple median : Q) (ds : list Q) :
  existsb snd (map (TrendCalculator.winsorize multiple median) ds) = true
  <-> exists delta, In delta ds /\ (multiple * median < delta)%Q.
Proof.
  rewrite existsb_exists. split.
  - intros (r & Hr & Hs). apply in_map_iff in Hr.
    destruct Hr as (d & <- & Hd). exists d. split; [exact Hd|].
    destruct (Qlt_le_dec (multiple * median) d) as [Hlt|Hle]; [exact Hlt|].
    rewrite (winsorize_within _ _ _ Hle) in Hs. discriminate.
  - intros (d & Hd & Hlt). exists ((multiple * median)%Q, true).
    split; [|reflexivity].
    rewrite <- (winsorize_above _ _ _ Hlt). apply in_map, Hd.
Qed.

Lemma capped_sum (multiple median : Q) (ds : list Q) :
  (TrendCalculator.sumQ
     (map fst (map (TrendCalculator.winsorize multiple median) ds))
   == TrendCalculator.sumQ (map (fun delta => Qmin delta (multiple * median)) ds))%Q.
Proof.
  induction ds as [|d t IH]; [reflexivity|].
  cbn [map TrendCalculator.sumQ fold_right].
  fold (TrendCalculator.sumQ
          (map fst (map (TrendCalculator.winsorize multiple median) t))).
  fold (TrendCalculator.sumQ
          (map (fun delta => Qmin delta (multiple * median)) t)).
  rewrite IH. apply Qplus_inj_r.
  destruct (Qlt_le_dec (multiple * median) d) as [Hlt|Hle].
  - rewrite (winsorize_above _ _ _ Hlt). cbn [fst].
    symmetry. apply Q.min_r. lra.
  - rewrite (winsorize_within _ _ _ Hle). cbn [fst].
    symmetry. apply Q.min_l. exact Hle.
Qed.

(** C6: in a window of at least two snapshots, each single-cycle delta
    (the difference of two consecutive follower counts) above [multiple]
    times the trailing median delta is replaced by that bound and marked,
    and each other delta is left as it is and unmarked; the trend is flagged
    [outlier_dampened] exactly when some delta was above the bound; and the
    growth rate is computed from the capped deltas, whichever cycle they
    belong to.  The jump from 300k to 900k with median delta 20k and
    multiple 3 is capped at 60k, also after three ordinary cycles, and a
    window without such a jump is not flagged. *)
Theorem winsorization_caps_delta :
  forall (multiple median earliest next : Q) (rest : list Q),
    let cap := (multiple * median)%Q in
    let window := earliest :: next :: rest in
    (forall delta, (cap < delta)%Q ->
       TrendCalculator.winsorize multiple median delta = (cap, true))
    /\ (forall delta, (delta <= cap)%Q ->
          TrendCalculator.winsorize multiple median delta = (delta, false))
    /\ List.length (TrendCalculator.deltas window) = S (List.length rest)
    /\ (forall (i : nat) (a b : Q),
          nth_error window i = Some a -> nth_error window (S i) = Some b ->
          nth_error (TrendCalculator.deltas window) i = Some (b - a)%Q)
    /\ Forall2
         (fun delta r =>
            ((cap < delta)%Q -> r = (cap, true))
            /\ ((delta <= cap)%Q -> r = (delta, false)))
         (TrendCalculator.deltas window)
         (TrendCalculator.dampened multiple median window)
    /\ (TrendCalculator.outlier_dampened
          (TrendCalculator.trend multiple median window) = true
        <-> exists delta,
              In delta (TrendCalculator.deltas window) /\ (cap < delta)%Q)
    /\ (exists g,
          TrendCalculator.growth_rate
            (TrendCalculator.trend multiple median window) = Some g
          /\ (g == 100
                  * TrendCalculator.sumQ
                      (map (fun delta => Qmin delta cap)
                         (TrendCalculator.deltas window))
                  / earliest)%Q)
    /\ TrendCalculator.winsorize 3 20000 (900000 - 300000) = (60000%Q, true)
    /\ TrendCalculator.outlier_dampened
         (TrendCalculator.trend 3 20000 [300000; 900000]%Q) = true
    /\ match TrendCalculator.growth_rate
               (TrendCalculator.trend 3 20000 [300000; 900000]%Q) with
       | Some g => (g == 20)%Q
       | None => False
       end
    /\ TrendCalculator.outlier_dampened
         (TrendCalculator.trend 3 20000
            [240000; 260000; 280000; 300000; 900000]%Q) = true
    /\ match TrendCalculator.growth_rate
               (TrendCalculator.trend 3 20000
                  [240000; 260000; 280000; 300000; 900000]%Q) with
       | Some g => (g == 50)%Q
       | None => False
       end
    /\ TrendCalculator.outlier_dampened
         (TrendCalculator.trend 3 20000 [300000; 310000]%Q) = false.
Proof.
  intros multiple median earliest next rest cap window.
  split; [intros delta; apply winsorize_above|].
  split; [intros delta; apply winsorize_within|].
  split; [unfold window; rewrite deltas_length; reflexivity|].
  split; [apply deltas_nth|].
  split; [apply dampened_pointwise|].
  split; [apply flagged_iff|].
  split; [|repeat split; reflexivity].
  eexists. split; [reflexivity|].
  unfold TrendCalculator.dampened. fold window. rewrite capped_sum.
  reflexivity.
Qed.

Lemma winsorization_caps_delta_witness :
  (3 * 20000 < 900000 - 300000)%Q
  /\ TrendCalculator.winsorize 3 20000 (900000 - 300000) = ((3 * 20000)%Q, true).
Proof.
  assert (H : (3 * 20000 < 900000 - 300000)%Q) by reflexivity.
  split; [exact H|].
  exact (proj1 (winsorization_caps_delta 3 20000 300000 900000 [])
           (900000 - 300000)%Q H).
Defined.

(** ** Snapshot Validator *)

Lemma stored_after_append (st : SnapshotValidator.State) (sid at_ : Z)
    (m : SnapshotValidator.RawMetrics) (d : list string) :
  SnapshotValidator.stored
    {| SnapshotValidator.log :=
         (SnapshotValidator.log st
          ++ [ {| SnapshotValidator.subject_id := sid;
                  SnapshotValidator.collected_at := at_;
                  SnapshotValidator.raw_metrics := m |} ])%list;
       SnapshotValidator.dirty := d |} sid at_ = true.
Proof.
  unfold SnapshotValidator.stored; simpl.
  rewrite existsb_app; simpl.
  rewrite !Z.eqb_refl. simpl. apply orb_true_r.
Qed.

Lemma submit_stored (categoryOf : Z -> string) (st : SnapshotValidator.State)
    (sid at_ : Z) (m : SnapshotValidator.RawMetrics) :
  SnapshotValidator.stored st sid at_ = true ->
  SnapshotValidator.submit_snapshot categoryOf st sid at_ m
  = (SnapshotValidator.accepted, st).
Proof.
  intros H. unfold SnapshotValidator.submit_snapshot. rewrite H. reflexivity.
Qed.

(** C8: submitting a snapshot whose (subject_id, collected_at) pair is
    already stored is accepted and leaves the state as it was; so a snapshot
    that has just been accepted can be submitted again, with success and
    without any change. *)
Theorem submit_snapshot_idempotent :
  forall (categoryOf : Z -> string) (st : SnapshotValidator.State)
         (sid at_ : Z) (m : SnapshotValidator.RawMetrics),
    SnapshotValidator.stored st sid at_ = true ->
    SnapshotValidator.submit_snapshot categoryOf st sid at_ m
    = (SnapshotValidator.accepted, st)
    /\ (forall st0 st1,
          SnapshotValidator.submit_snapshot categoryOf st0 sid at_ m
          = (SnapshotValidator.accepted, st1) ->
          SnapshotValidator.submit_snapshot categoryOf st1 sid at_ m
          = (SnapshotValidator.accepted, st1)).
Proof.
  intros categoryOf st sid at_ m H.
  split; [apply submit_stored, H|].
  intros st0 st1 H0. apply submit_stored.
  unfold SnapshotValidator.submit_snapshot in H0.
  destruct (SnapshotValidator.stored st0 sid at_) eqn:E0.
  - inversion H0; subst. exact E0.
  - destruct (negb (SnapshotValidator.complete m)); [discriminate|].
    destruct (negb (SnapshotValidator.nonNegative m)); [discriminate|].
    destruct (negb (SnapshotValidator.strictlyAfterLast st0 sid at_)); [discriminate|].
    inversion H0; subst. apply stored_after_append.
Qed.

Lemma submit_snapshot_idempotent_witness :
  SnapshotValidator.stored stateAfterFirst 7 100 = true
  /\ SnapshotValidator.submit_snapshot anyCategory stateAfterFirst 7 100 sampleMetrics
     = (SnapshotValidator.accepted, stateAfterFirst).
Proof.
  assert (H : SnapshotValidator.stored stateAfterFirst 7 100 = true) by reflexivity.
  split; [exact H|].
  exact (proj1 (submit_snapshot_idempotent anyCategory stateAfterFirst 7 100
                  sampleMetrics H)).
Defined.

(** ** Cohort Normalizer *)

Lemma StronglySorted_trivial {A : Type} (l : list A) :
  StronglySorted (fun _ _ => True) l.
Proof.
  induction l; constructor; [assumption|].
  apply Forall_forall. intros; exact I.
Qed.

Lemma ascending_perm (cohort : list Q) :
  Permutation cohort (CohortNormalizer.ascending cohort).
Proof. apply sort_perm. Qed.

Lemma ascending_sorted (cohort : list Q) :
  StronglySorted Qle (CohortNormalizer.ascending cohort).
Proof.
  unfold CohortNormalizer.ascending.
  eapply StronglySorted_weaken;
    [| apply (sort_stable (fun a b => a - b)%Q) with (P := fun _ _ => True);
       [ | | apply StronglySorted_trivial ] ].
  - cbv beta. intros a b [H _]. lra.
  - cbv beta. intros a b. destruct (Qlt_le_dec a b); [left | right]; lra.
  - cbv beta. intros a b c H1 H2. lra.
Qed.

Lemma filter_length_perm {A : Type} (p : A -> bool) (l l' : list A) :
  Permutation l l' -> List.length (filter p l) = List.length (filter p l').
Proof.
  induction 1 as [|x l l' _ IH|x y l|l l' l'' _ IH1 _ IH2]; simpl.
  - reflexivity.
  - destruct (p x); simpl; congruence.
  - destruct (p x), (p y); reflexivity.
  - congruence.
Qed.

Lemma below_cons (v y : Q) (t : list Q) :
  CohortNormalizer.below v (y :: t)
  = (if Qle_bool v y then 0 else 1) + CohortNormalizer.below v t.
Proof.
  unfold CohortNormalizer.below. cbn [filter].
  destruct (Qle_bool v y); cbn [negb List.length]; lia.
Qed.

Lemma tied_cons (v y : Q) (t : list Q) :
  CohortNormalizer.tied v (y :: t)
  = (if Qeq_bool y v then 1 else 0) + CohortNormalizer.tied v t.
Proof.
  unfold CohortNormalizer.tied. cbn [filter].
  destruct (Qeq_bool y v); cbn [List.length]; lia.
Qed.

Lemma below_nonneg (v : Q) (l : list Q) : 0 <= CohortNormalizer.below v l.
Proof. unfold CohortNormalizer.below. lia. Qed.

Lemma tied_nonneg (v : Q) (l : list Q) : 0 <= CohortNormalizer.tied v l.
Proof. unfold CohortNormalizer.tied. lia. Qed.

Lemma below_zero (v : Q) (t : list Q) :
  Forall (fun z => v <= z)%Q t -> CohortNormalizer.below v t = 0.
Proof.
  induction 1 as [|z t Hz _ IH]; [reflexivity|].
  rewrite below_cons, IH.
  apply Qle_bool_iff in Hz. rewrite Hz. reflexivity.
Qed.

Lemma tied_zero (v : Q) (t : list Q) :
  Forall (fun z => v < z)%Q t -> CohortNormalizer.tied v t = 0.
Proof.
  induction 1 as [|z t Hz _ IH]; [reflexivity|].
  rewrite tied_cons, IH.
  destruct (Qeq_bool z v) eqn:E; [|reflexivity].
  apply Qeq_bool_iff in E. lra.
Qed.

Lemma tiedRanks_sorted (v : Q) (s : list Q) :
  forall k : Z,
    StronglySorted Qle s ->
    Z.of_nat (List.length (CohortNormalizer.tiedRanks v k s)) = CohortNormalizer.tied v s
    /\ 2 * CohortNormalizer.total (CohortNormalizer.tiedRanks v k s)
       = CohortNormalizer.tied v s
         * (2 * k + 2 * CohortNormalizer.below v s + CohortNormalizer.tied v s - 1).
Proof.
  induction s as [|y t IH]; intros k HS.
  - split; reflexivity.
  - inversion HS as [|? ? HSt Hy]; subst.
    destruct (IH (k + 1) HSt) as [IHl IHt].
    rewrite tied_cons, below_cons. simpl CohortNormalizer.tiedRanks.
    pose proof (tied_nonneg v t) as HT.
    destruct (Qeq_bool y v) eqn:E.
    + apply Qeq_bool_iff in E.
      assert (Hle : Qle_bool v y = true) by (apply Qle_bool_iff; lra).
      assert (HB : CohortNormalizer.below v t = 0).
      { apply below_zero. eapply Forall_impl; [|exact Hy].
        cbv beta. intros z Hz. lra. }
      rewrite Hle, HB in *.
      cbn [List.length CohortNormalizer.total fold_right].
      fold (CohortNormalizer.total (CohortNormalizer.tiedRanks v (k + 1) t)).
      split; [lia | nia].
    + apply Qeq_bool_neq in E.
      destruct (Qle_bool v y) eqn:E2.
      * apply Qle_bool_iff in E2.
        assert (HT0 : CohortNormalizer.tied v t = 0).
        { apply tied_zero. eapply Forall_impl; [|exact Hy].
          cbv beta. intros z Hz.
          destruct (Qlt_le_dec v y) as [Hlt|Hge]; [lra|].
          exfalso. apply E. lra. }
        rewrite HT0 in *. split; [lia | lia].
      * split; [lia | nia].
Qed.

Lemma tied_pos (v : Q) (cohort : list Q) :
  In v cohort -> 1 <= CohortNormalizer.tied v cohort.
Proof.
  induction cohort as [|y t IH]; [contradiction|].
  intros [->|H]; rewrite tied_cons.
  - rewrite (proj2 (Qeq_bool_iff v v) (Qeq_refl v)).
    pose proof (tied_nonneg v t). lia.
  - specialize (IH H). destruct (Qeq_bool y v); lia.
Qed.

Lemma below_perm (v : Q) (l l' : list Q) :
  Permutation l l' -> CohortNormalizer.below v l = CohortNormalizer.below v l'.
Proof.
  intros H. unfold CohortNormalizer.below.
  rewrite (filter_length_perm _ _ _ H). reflexivity.
Qed.

Lemma tied_perm (v : Q) (l l' : list Q) :
  Permutation l l' -> CohortNormalizer.tied v l = CohortNormalizer.tied v l'.
Proof.
  intros H. unfold CohortNormalizer.tied.
  rewrite (filter_length_perm _ _ _ H). reflexivity.
Qed.

(** The values tied with [v] hold the ranks [below + 1 .. below + tied] of
    the ordered cohort, whose mean is [below + (tied + 1) / 2]. *)
Lemma rank_closed_form (cohort : list Q) (v : Q) :
  In v cohort ->
  (CohortNormalizer.rank cohort v
   == inject_Z (CohortNormalizer.below v cohort)
      + (inject_Z (CohortNormalizer.tied v cohort) + 1) / 2)%Q.
Proof.
  intros Hin. unfold CohortNormalizer.rank, CohortNormalizer.mean.
  destruct (tiedRanks_sorted v _ 1 (ascending_sorted cohort)) as [Hl Ht].
  rewrite Hl.
  rewrite <- (tied_perm v _ _ (ascending_perm cohort)) in *.
  rewrite <- (below_perm v _ _ (ascending_perm cohort)) in *.
  pose proof (tied_pos v cohort Hin) as HT.
  set (T := CohortNormalizer.tied v cohort) in *.
  set (B := CohortNormalizer.below v cohort) in *.
  set (S := CohortNormalizer.total _) in *.
  assert (HQ : (2 * inject_Z S == inject_Z T * (2 * inject_Z B + inject_Z T + 1))%Q).
  { change 2%Q with (inject_Z 2). change 1%Q with (inject_Z 1).
    rewrite <- !inject_Z_mult, <- !inject_Z_plus, <- !inject_Z_mult.
    rewrite Ht. apply inject_Z_injective. ring. }
  assert (HTq : (0 < inject_Z T)%Q).
  { change 0%Q with (inject_Z 0). rewrite <- Zlt_Qlt. lia. }
  assert (HS : (inject_Z S == inject_Z T * (inject_Z B + (inject_Z T + 1) / 2))%Q).
  { generalize dependent (inject_Z S). generalize dependent (inject_Z T).
    generalize dependent (inject_Z B). intros b t _ s Hs.
    setoid_replace (t * (b + (t + 1) / 2))%Q with ((t * (2 * b + t + 1)) / 2)%Q
      by field.
    rewrite <- Hs. field. }
  rewrite HS. field. intro H0. rewrite H0 in HTq. discriminate.
Qed.

Lemma below_tied_le (v : Q) (l : list Q) :
  CohortNormalizer.below v l + CohortNormalizer.tied v l <= Z.of_nat (List.length l).
Proof.
  induction l as [|y t IH]; [reflexivity|].
  rewrite below_cons, tied_cons. cbn [List.length]. rewrite Nat2Z.inj_succ.
  destruct (Qeq_bool y v) eqn:E.
  - apply Qeq_bool_iff in E.
    assert (Hle : Qle_bool v y = true) by (apply Qle_bool_iff; lra).
    rewrite Hle. lia.
  - destruct (Qle_bool v y); lia.
Qed.

(** C2: in a cohort of [n >= 2] values, the rank of a member [v] is the
    mean of the ranks [below + 1 .. below + tied] held by the values tied
    with it, its percentile is [100 * (rank - 1) / (n - 1)], which lies
    between 0 and 100; the cohort of follower counts 100k, 500k, 1M, 2M, 3M
    gets the percentiles 0, 25, 50, 75, 100, the subject at 1M being at 50,
    and two tied values share the mean of their ranks. *)
Theorem percentile_rank_formula :
  forall (cohort : list Q) (v : Q),
    In v cohort ->
    (2 <= List.length cohort)%nat ->
    let n := inject_Z (Z.of_nat (List.length cohort)) in
    let b := inject_Z (CohortNormalizer.below v cohort) in
    let t := inject_Z (CohortNormalizer.tied v cohort) in
    (CohortNormalizer.rank cohort v == b + (t + 1) / 2)%Q
    /\ (CohortNormalizer.percentile cohort v
        == 100 * (CohortNormalizer.rank cohort v - 1) / (n - 1))%Q
    /\ (0 <= CohortNormalizer.percentile cohort v <= 100)%Q
    /\ Forall2 Qeq (CohortNormalizer.percentiles techFollowers) [0; 25; 50; 75; 100]%Q
    /\ (CohortNormalizer.percentile techFollowers 1000000 == 50)%Q
    /\ Forall2 Qeq (CohortNormalizer.percentiles [10; 20; 20; 30]%Q) [0; 50; 50; 100]%Q.
Proof.
  intros cohort v Hin Hn n b t.
  pose proof (rank_closed_form cohort v Hin) as Hr. fold b t in Hr.
  split; [exact Hr|].
  split; [reflexivity|].
  split; [|repeat split; repeat constructor].
  unfold CohortNormalizer.percentile. fold n. rewrite Hr.
  assert (Hn2 : (2 <= n)%Q).
  { unfold n. change 2%Q with (inject_Z 2). rewrite <- Zle_Qle. lia. }
  assert (Ht1 : (1 <= t)%Q).
  { unfold t. change 1%Q with (inject_Z 1). rewrite <- Zle_Qle.
    apply tied_pos, Hin. }
  assert (Hb0 : (0 <= b)%Q).
  { unfold b. change 0%Q with (inject_Z 0). rewrite <- Zle_Qle.
    apply below_nonneg. }
  assert (Hbt : (b + t <= n)%Q).
  { unfold b, t, n. rewrite <- inject_Z_plus, <- Zle_Qle. apply below_tied_le. }
  assert (Hh : ((t + 1) / 2 == (t + 1) * (1 # 2))%Q) by reflexivity.
  rewrite Hh.
  split.
  - apply Qle_shift_div_l; lra.
  - apply Qle_shift_div_r; lra.
Qed.

Lemma percentile_rank_formula_witness :
  In 1000000%Q techFollowers
  /\ (2 <= List.length techFollowers)%nat
  /\ (CohortNormalizer.rank techFollowers 1000000 == 2 + (1 + 1) / 2)%Q.
Proof.
  assert (H1 : In 1000000%Q techFollowers).
  { right. right. left. reflexivity. }
  assert (H2 : (2 <= List.length techFollowers)%nat).
  { apply le_S, le_S, le_S, le_n. }
  split; [exact H1 | split; [exact H2|]].
  exact (proj1 (percentile_rank_formula techFollowers 1000000 H1 H2)).
Defined.

(** * Further properties of the pages *)

(** ** Filtering and sorting *)

Section SortMore.
Context {A : Type} (cmp : A -> A -> Q).
Let le (a b : A) : Prop := (cmp a b <= 0)%Q.
Hypothesis le_total : forall a b, le a b \/ le b a.
Hypothesis le_trans : forall a b c, le a b -> le b c -> le a c.

Lemma sort_sorted (l : list A) : StronglySorted le (sort cmp l).
Proof.
  eapply StronglySorted_weaken;
    [| apply (sort_stable cmp le_total le_trans (fun _ _ => True)),
         StronglySorted_trivial ].
  cbv beta. intros a b [H _]. exact H.
Qed.

Lemma insert_least (x : A) (l : list A) :
  Forall (le x) l -> insert cmp x l = x :: l.
Proof.
  destruct 1 as [|y t Hy _]; [reflexivity|]. simpl.
  apply Qle_bool_iff in Hy. rewrite Hy. reflexivity.
Qed.

(** Inserting into an ordered list and then filtering is filtering and
    then inserting. *)
Lemma filter_insert (p : A -> bool) (x : A) (l : list A) :
  StronglySorted le l ->
  filter p (insert cmp x l)
  = if p x then insert cmp x (filter p l) else filter p l.
Proof.
  induction 1 as [|y t HS IH Hy]; simpl.
  - destruct (p x); reflexivity.
  - destruct (Qle_bool (cmp x y) 0) eqn:E.
    + cbn [filter]. destruct (p x); [|reflexivity].
      symmetry. apply (insert_least x (filter p (y :: t))).
      apply Qle_bool_iff in E.
      apply Forall_forall. intros z Hz. apply filter_In in Hz.
      destruct Hz as [[<-|Hz] _]; [exact E|].
      rewrite Forall_forall in Hy. apply le_trans with y; [exact E | apply Hy, Hz].
    + cbn [filter]. rewrite IH.
      destruct (p y), (p x); cbn [insert]; try rewrite E; reflexivity.
Qed.

Lemma filter_sort (p : A -> bool) (l : list A) :
  filter p (sort cmp l) = sort cmp (filter p l).
Proof.
  induction l as [|x t IH]; [reflexivity|].
  cbn [sort filter]. rewrite filter_insert by apply sort_sorted.
  rewrite IH. destruct (p x); reflexivity.
Qed.

Lemma sort_of_sorted (l : list A) : StronglySorted le l -> sort cmp l = l.
Proof.
  induction 1 as [|x t HS IH Hx]; [reflexivity|].
  cbn [sort]. rewrite IH. apply insert_least, Hx.
Qed.

End SortMore.

Lemma filterIf_filter (v : JS.value) (p : string -> Influencer -> bool)
    (l : list Influencer) :
  filterIf v p l = filter (setAnd v p) l.
Proof.
  assert (Hall : filter (fun _ : Influencer => true) l = l).
  { induction l as [|x t IH]; simpl; congruence. }
  unfold filterIf, setAnd. destruct v as [s|]; [|symmetry; exact Hall].
  destruct (JS.truthy (Some s)); [reflexivity | symmetry; exact Hall].
Qed.

Lemma filter_filter {A : Type} (p1 p2 : A -> bool) (l : list A) :
  filter p2 (filter p1 l) = filter (fun x => p1 x && p2 x) l.
Proof.
  induction l as [|x t IH]; [reflexivity|]. simpl.
  destruct (p1 x); simpl; [destruct (p2 x)|]; rewrite IH; reflexivity.
Qed.

(** The page filters and then sorts; sorting first and filtering then gives
    the same list. *)
Lemma fetch_filter_sort (l : list Influencer) (q : Query) :
  fetchInfluencersFrom l q
  = filter (keeps q) (sort (comparator (sortField q) (sortDirection q)) l).
Proof.
  unfold fetchInfluencersFrom.
  rewrite !filterIf_filter, !filter_filter.
  rewrite (filter_sort _ (comparator_total _ _) (comparator_trans _ _)).
  f_equal. apply filter_ext. intros inf. unfold keeps.
  rewrite !andb_assoc. reflexivity.
Qed.

Lemma fetch_unfiltered (l : list Influencer) (q : Query) :
  fetchInfluencersFrom l (unfiltered q)
  = sort (comparator (sortField q) (sortDirection q)) l.
Proof. reflexivity. Qed.

Lemma keeps_satisfies (q : Query) (inf : Influencer) :
  keeps q inf = true <-> satisfies q inf.
Proof.
  pose proof (fetch_In [inf] q inf) as H1.
  rewrite fetch_filter_sort, filter_In, In_sort in H1.
  assert (In inf [inf]) by (left; reflexivity). tauto.
Qed.

(** X1: a filter only removes rows.  The list shown for a query is the list
    shown for the same sort with the search box and all filters empty,
    without the subjects that fail the query, the others keeping their
    order. *)
Theorem filters_only_remove_rows :
  forall (l : list Influencer) (q : Query),
    fetchInfluencersFrom l q
    = filter (keeps q) (fetchInfluencersFrom l (unfiltered q))
    /\ (forall inf, keeps q inf = true <-> satisfies q inf).
Proof.
  intros l q. split.
  - rewrite fetch_unfiltered. apply fetch_filter_sort.
  - intros inf. apply keeps_satisfies.
Qed.

(** X2: the list shown is ordered by the chosen column in the chosen
    direction: of two rows, the upper one has the smaller or equal value
    when ascending, the larger or equal one when descending. *)
Theorem fetch_sorted :
  forall (l : list Influencer) (q : Query),
    StronglySorted
      (fun a b => match sortDirection q with
                  | asc => field (sortField q) a <= field (sortField q) b
                  | desc => field (sortField q) b <= field (sortField q) a
                  end)%Q
      (fetchInfluencersFrom l q).
Proof.
  intros l q. rewrite fetch_filter_sort. apply StronglySorted_filter.
  eapply StronglySorted_weaken;
    [| apply (sort_sorted _ (comparator_total _ _) (comparator_trans _ _)) ].
  cbv beta. unfold comparator. intros a b H. destruct (sortDirection q); lra.
Qed.

Lemma filter_length_le {A : Type} (p : A -> bool) (l : list A) :
  (List.length (filter p l) <= List.length l)%nat.
Proof.
  induction l as [|x t IH]; simpl; [lia|]. destruct (p x); simpl; lia.
Qed.

Lemma filter_keeps_ids_distinct (p : Influencer -> bool) (l : list Influencer) :
  NoDup (map id l) -> NoDup (map id (filter p l)).
Proof.
  induction l as [|x t IH]; simpl; intros H; [exact H|].
  inversion H as [|? ? Hn Ht]; subst.
  destruct (p x); simpl; [|apply IH, Ht].
  constructor; [|apply IH, Ht].
  intros Hin. apply Hn. apply in_map_iff in Hin.
  destruct Hin as (y & Hy & Hin). apply filter_In in Hin.
  apply in_map_iff. exists y. tauto.
Qed.

(** X3: the page lists no more rows than subjects were fetched, and when
    the fetched subjects have different ids, so have the rows (the rows are
    keyed by [id]). *)
Theorem rows_have_distinct_keys :
  forall (l : list Influencer) (q : Query),
    NoDup (map id l) ->
    NoDup (map id (fetchInfluencersFrom l q))
    /\ (List.length (fetchInfluencersFrom l q) <= List.length l)%nat.
Proof.
  intros l q H. rewrite fetch_filter_sort.
  pose proof (sort_perm (comparator (sortField q) (sortDirection q)) l) as Hp.
  split.
  - apply filter_keeps_ids_distinct.
    eapply Permutation_NoDup; [apply Permutation_map, Hp | exact H].
  - rewrite (Permutation_length Hp). apply filter_length_le.
Qed.

Lemma rows_have_distinct_keys_witness :
  NoDup (map id mockInfluencers)
  /\ NoDup (map id (fetchInfluencersFrom mockInfluencers expertQuery)).
Proof.
  assert (H : NoDup (map id mockInfluencers)).
  { simpl. repeat (constructor; [simpl; intuition discriminate|]). constructor. }
  split; [exact H|].
  exact (proj1 (rows_have_distinct_keys mockInfluencers expertQuery H)).
Defined.

(** X4: after Reset, with nothing in the search box, the page lists every
    fetched subject, each as often as it was fetched. *)
Theorem reset_lists_everything :
  forall (l : list Influencer) (q : Query),
    JS.truthy (searchTerm q) = false ->
    Permutation l (fetchInfluencersFrom l (resetFilters q)).
Proof.
  intros l q H. unfold fetchInfluencersFrom, resetFilters, setFilters; simpl.
  unfold filterIf at 1. rewrite H.
  destruct (searchTerm q); apply sort_perm.
Qed.

Lemma reset_lists_everything_witness :
  JS.truthy (searchTerm initialQuery) = false
  /\ Permutation mockInfluencers
       (fetchInfluencersFrom mockInfluencers (resetFilters initialQuery)).
Proof.
  assert (H : JS.truthy (searchTerm initialQuery) = false) by reflexivity.
  split; [exact H|].
  exact (reset_lists_everything mockInfluencers initialQuery H).
Defined.

Lemma nothing_listed (l : list Influencer) (q : Query) :
  (forall inf, In inf l -> ~ satisfies q inf) -> fetchInfluencersFrom l q = [].
Proof.
  intros H. destruct (fetchInfluencersFrom l q) as [|x t] eqn:E; [reflexivity|].
  assert (Hx : In x (fetchInfluencersFrom l q)) by (rewrite E; left; reflexivity).
  apply fetch_In in Hx. destruct Hx as [Hin Hs]. destruct (H x Hin Hs).
Qed.

(** X5: a bound that is set but does not start with a whole number empties
    the list, whatever the other filters are: the comparison with [NaN]
    fails for every subject. *)
Theorem unreadable_bound_lists_nothing :
  forall (l : list Influencer) (q : Query) (name value : string),
    (name = "minFollowers" \/ name = "maxFollowers"
     \/ name = "minScore" \/ name = "maxScore") ->
    value <> "" ->
    JS.parseInt value = None ->
    fetchInfluencersFrom l
      (setFilters (handleFilterChange name value (filters q)) q) = [].
Proof.
  intros l q name value Hname Hv Hp. apply nothing_listed.
  intros inf _ (_ & _ & H1 & H2 & H3 & H4).
  assert (Ha : forall v, v = Some value -> active v value)
    by (intros v ->; split; [reflexivity | exact Hv]).
  destruct Hname as [ -> | [ -> | [ -> | -> ] ] ]; simpl in *.
  - destruct (H1 value (Ha _ eq_refl)) as (n & Hn & _); congruence.
  - destruct (H2 value (Ha _ eq_refl)) as (n & Hn & _); congruence.
  - destruct (H3 value (Ha _ eq_refl)) as (n & Hn & _); congruence.
  - destruct (H4 value (Ha _ eq_refl)) as (n & Hn & _); congruence.
Qed.

Lemma unreadable_bound_lists_nothing_witness :
  fetchInfluencersFrom mockInfluencers
    (setFilters (handleFilterChange "minScore" "high" (filters initialQuery))
       initialQuery) = [].
Proof.
  apply (unreadable_bound_lists_nothing mockInfluencers initialQuery
           "minScore" "high").
  - right; right; left; reflexivity.
  - discriminate.
  - reflexivity.
Defined.

(** X6: a lower bound above the upper bound, on followers or on score,
    empties the list. *)
Theorem crossed_bounds_list_nothing :
  forall (l : list Influencer) (q : Query) (lo hi : string) (n m : Z),
    JS.parseInt lo = Some n ->
    JS.parseInt hi = Some m ->
    m < n ->
    (active (minFollowers (filters q)) lo /\ active (maxFollowers (filters q)) hi)
    \/ (active (minScore (filters q)) lo /\ active (maxScore (filters q)) hi) ->
    fetchInfluencersFrom l q = [].
Proof.
  intros l q lo hi n m Hlo Hhi Hlt Hact. apply nothing_listed.
  intros inf _ (_ & _ & H1 & H2 & H3 & H4).
  assert (Hq : (inject_Z m < inject_Z n)%Q) by (rewrite <- Zlt_Qlt; exact Hlt).
  destruct Hact as [[Ha Hb]|[Ha Hb]].
  - destruct (H1 lo Ha) as (n' & Hn' & Hge).
    destruct (H2 hi Hb) as (m' & Hm' & Hle).
    assert (n' = n) by congruence. assert (m' = m) by congruence. subst. lra.
  - destruct (H3 lo Ha) as (n' & Hn' & Hge).
    destruct (H4 hi Hb) as (m' & Hm' & Hle).
    assert (n' = n) by congruence. assert (m' = m) by congruence. subst. lra.
Qed.

Lemma crossed_bounds_list_nothing_witness :
  fetchInfluencersFrom mockInfluencers
    {| searchTerm := None; sortField := by_follower_count; sortDirection := asc;
       filters := {| f_category := None; minFollowers := Some "900000";
                     maxFollowers := Some "500000"; minScore := None;
                     maxScore := None |} |} = [].
Proof.
  apply (crossed_bounds_list_nothing mockInfluencers _ "900000" "500000"
           900000 500000).
  - reflexivity.
  - reflexivity.
  - reflexivity.
  - left. split; split; simpl; (reflexivity || discriminate).
Defined.

(** ** Clicking a column header *)

Lemma StronglySorted_rev {A : Type} (R : A -> A -> Prop) (l : list A) :
  StronglySorted R l -> StronglySorted (fun a b => R b a) (rev l).
Proof.
  induction 1 as [|x t HS IH Hx]; simpl; [constructor|].
  assert (Happ : forall l', StronglySorted (fun a b => R b a) l' ->
                            Forall (fun z => R x z) l' ->
                            StronglySorted (fun a b => R b a) (l' ++ [x])%list).
  { induction 1 as [|y t' HS' IH' Hy]; intros Hall; simpl.
    - repeat constructor.
    - inversion Hall as [|? ? Hxy Hall']; subst.
      constructor; [apply IH', Hall'|].
      apply Forall_app. split; [exact Hy | repeat constructor; exact Hxy]. }
  apply Happ; [exact IH|].
  apply Forall_forall. intros z Hz. apply in_rev in Hz.
  rewrite Forall_forall in Hx. apply Hx, Hz.
Qed.

(** Strictly ordered in the direction [d] of column [f]. *)
Lemma fetch_strict (l : list Influencer) (q : Query) :
  distinctIn (sortField q) l ->
  StronglySorted
    (fun a b => match sortDirection q with
                | asc => field (sortField q) a < field (sortField q) b
                | desc => field (sortField q) b < field (sortField q) a
                end)%Q
    (fetchInfluencersFrom l q).
Proof.
  intros Hd. unfold fetchInfluencersFrom.
  eapply StronglySorted_weaken;
    [| apply (sort_stable _ (comparator_total _ _) (comparator_trans _ _)
                (fun a b => ~ (field (sortField q) a == field (sortField q) b)%Q));
       repeat apply filterIf_sorted; exact Hd ].
  cbv beta. unfold comparator. intros a b [H1 H2].
  destruct (sortDirection q).
  - destruct (Qlt_le_dec (field (sortField q) a) (field (sortField q) b))
      as [Hlt|Hge]; [exact Hlt|].
    exfalso. apply H2; lra.
  - destruct (Qlt_le_dec (field (sortField q) b) (field (sortField q) a))
      as [Hlt|Hge]; [exact Hlt|].
    exfalso. apply H2; lra.
Qed.

Lemma SortField_eqb_refl (f : SortField) : SortField_eqb f f = true.
Proof. destruct f; reflexivity. Qed.

Lemma fetch_perm_filters (l : list Influencer) (q q' : Query) :
  searchTerm q' = searchTerm q -> filters q' = filters q ->
  Permutation (fetchInfluencersFrom l q') (fetchInfluencersFrom l q).
Proof.
  intros Hs Hf. unfold fetchInfluencersFrom. rewrite Hs, Hf.
  eapply perm_trans; [apply Permutation_sym, sort_perm | apply sort_perm].
Qed.

Lemma toggle_reverses_list (l : list Influencer) (q : Query) :
  distinctIn (sortField q) l ->
  fetchInfluencersFrom l (handleSort (sortField q) q)
  = rev (fetchInfluencersFrom l q).
Proof.
  intros Hd.
  pose proof (fetch_strict l q Hd) as H1. apply StronglySorted_rev in H1.
  assert (Hq : sortField (handleSort (sortField q) q) = sortField q).
  { unfold handleSort. rewrite SortField_eqb_refl. reflexivity. }
  assert (Hd' : distinctIn (sortField (handleSort (sortField q) q)) l)
    by (rewrite Hq; exact Hd).
  pose proof (fetch_strict l _ Hd') as H2. rewrite Hq in H2.
  assert (Hdir : sortDirection (handleSort (sortField q) q)
                 = match sortDirection q with asc => desc | desc => asc end).
  { unfold handleSort. rewrite SortField_eqb_refl. reflexivity. }
  rewrite Hdir in H2.
  assert (Hp : Permutation (fetchInfluencersFrom l (handleSort (sortField q) q))
                 (rev (fetchInfluencersFrom l q))).
  { eapply perm_trans; [|apply Permutation_rev].
    apply fetch_perm_filters; unfold handleSort;
      rewrite SortField_eqb_refl; reflexivity. }
  destruct (sortDirection q);
    (eapply sorted_perm_unique; [| exact H2 | exact H1 | exact Hp]);
    cbv beta; intros a b Ha Hb; lra.
Qed.

(** X7: a click on the header of the column the list is sorted by turns
    the list upside down when no two subjects have the same value in that
    column, and a second click brings the first list back. *)
Theorem header_click_reverses :
  forall (l : list Influencer) (q : Query),
    distinctIn (sortField q) l ->
    fetchInfluencersFrom l (handleSort (sortField q) q)
    = rev (fetchInfluencersFrom l q)
    /\ fetchInfluencersFrom l
         (handleSort (sortField q) (handleSort (sortField q) q))
       = fetchInfluencersFrom l q.
Proof.
  intros l q Hd. split; [apply toggle_reverses_list, Hd|].
  f_equal. destruct q as [s f d fl]. unfold handleSort; simpl.
  rewrite !SortField_eqb_refl; simpl. rewrite ?SortField_eqb_refl.
  destruct d; reflexivity.
Qed.

Lemma header_click_reverses_witness :
  distinctIn (sortField initialQuery) mockInfluencers
  /\ map id (fetchInfluencersFrom mockInfluencers
              (handleSort (sortField initialQuery) initialQuery))
     = map id (rev (fetchInfluencersFrom mockInfluencers initialQuery)).
Proof.
  assert (H : distinctIn (sortField initialQuery) mockInfluencers).
  { unfold distinctIn, mockInfluencers.
    repeat (constructor; [|repeat (constructor; [discriminate|]); constructor]).
    constructor. }
  split; [exact H|].
  exact (f_equal (map id) (proj1 (header_click_reverses mockInfluencers initialQuery H))).
Defined.

(** ** The search box *)

Lemma toLowerCase_empty (s1 s2 : string) :
  JS.toLowerCase s1 = JS.toLowerCase s2 ->
  JS.truthy (Some s1) = JS.truthy (Some s2).
Proof. destruct s1, s2; simpl; intros H; (reflexivity || discriminate). Qed.

(** X8: the search does not look at the case of the term: two terms with
    the same lower-case form list the same subjects. *)
Theorem search_ignores_case_of_term :
  forall (l : list Influencer) (q : Query) (s1 s2 : string),
    JS.toLowerCase s1 = JS.toLowerCase s2 ->
    fetchInfluencersFrom l (setSearchTerm s1 q)
    = fetchInfluencersFrom l (setSearchTerm s2 q).
Proof.
  intros l q s1 s2 H. unfold fetchInfluencersFrom, setSearchTerm.
  cbn [searchTerm sortField sortDirection filters].
  assert (Hf : filterIf (Some s1) matchesSearch l = filterIf (Some s2) matchesSearch l).
  { unfold filterIf. rewrite (toLowerCase_empty s1 s2 H).
    destruct (JS.truthy (Some s2)); [|reflexivity].
    apply filter_ext. intros inf. unfold matchesSearch. rewrite H. reflexivity. }
  rewrite Hf. reflexivity.
Qed.

Lemma search_ignores_case_of_term_witness :
  fetchInfluencersFrom mockInfluencers (setSearchTerm "EXPERT" initialQuery)
  = fetchInfluencersFrom mockInfluencers (setSearchTerm "expert" initialQuery).
Proof.
  apply (search_ignores_case_of_term mockInfluencers initialQuery "EXPERT" "expert").
  reflexivity.
Defined.

(** ** The table *)

(** X9: the line "No influencers found matching your criteria." is shown
    exactly when no fetched subject meets the query. *)
Theorem empty_message_iff_no_match :
  forall (l : list Influencer) (q : Query),
    tableBody (fetchInfluencersFrom l q) = NoInfluencersFound
    <-> (forall inf, In inf l -> ~ satisfies q inf).
Proof.
  intros l q. split.
  - intros H inf Hin Hs.
    assert (Hl : In inf (fetchInfluencersFrom l q)) by (apply fetch_In; tauto).
    destruct (fetchInfluencersFrom l q); [contradiction | discriminate].
  - intros H. rewrite (nothing_listed l q H). reflexivity.
Qed.

(** ** The colour of a score *)

(** X10: [getScoreColor] is green from 80 on, blue from 60 to below 80,
    yellow from 40 to below 60 and red below 40, and a higher score never
    gets a weaker colour. *)
Theorem score_color_bands :
  forall score : Q,
    (getScoreColor score = bg_green_500 <-> (80 <= score)%Q)
    /\ (getScoreColor score = bg_blue_500 <-> (60 <= score /\ score < 80)%Q)
    /\ (getScoreColor score = bg_yellow_500 <-> (40 <= score /\ score < 60)%Q)
    /\ (getScoreColor score = bg_red_500 <-> (score < 40)%Q)
    /\ (forall higher : Q, (score <= higher)%Q ->
          colorLevel (getScoreColor score) <= colorLevel (getScoreColor higher)).
Proof.
  intros score.
  assert (Hb : forall c x, (Qle_bool c x = true -> (c <= x)%Q)
                           /\ (Qle_bool c x = false -> (x < c)%Q)).
  { intros c x. split; intros H.
    - apply Qle_bool_iff, H.
    - destruct (Qlt_le_dec x c) as [Hlt|Hge]; [exact Hlt|].
      apply Qle_bool_iff in Hge. congruence. }
  unfold getScoreColor.
  destruct (Qle_bool 80 score) eqn:E80; destruct (Qle_bool 60 score) eqn:E60;
    destruct (Qle_bool 40 score) eqn:E40;
    apply Hb in E80; apply Hb in E60; apply Hb in E40;
    (repeat split; try discriminate; try lra; try reflexivity;
     try (intros; exfalso; lra);
     intros higher Hh;
     destruct (Qle_bool 80 higher) eqn:F80; destruct (Qle_bool 60 higher) eqn:F60;
     destruct (Qle_bool 40 higher) eqn:F40;
     apply Hb in F80; apply Hb in F60; apply Hb in F40;
     cbn [colorLevel]; try lia; exfalso; lra).
Qed.

(** ** From a row to the detail page *)

Ltac digit_step IH :=
  cbn [NilEmpty.string_of_uint JS.read_digits];
  match goal with
  | |- context [JS.digit_val 10 ?c] =>
      let v := eval vm_compute in (JS.digit_val 10 c) in
      change (JS.digit_val 10 c) with v; cbv iota beta
  end;
  cbn [Pos.of_uint_acc Pos.of_uint].

Lemma read_uint_acc (d : Decimal.uint) :
  forall p : BinNums.positive,
    JS.read_digits 10 (NilEmpty.string_of_uint d) (Some (Z.pos p))
    = Some (Z.pos (Pos.of_uint_acc d p)).
Proof.
  induction d as [|d IH|d IH|d IH|d IH|d IH|d IH|d IH|d IH|d IH|d IH];
    intros p; [reflexivity | ..];
    digit_step IH;
    match goal with
    | |- JS.read_digits 10 _ (Some ?a) = Some (Z.pos (Pos.of_uint_acc _ ?b)) =>
        replace a with (Z.pos b) by lia; apply IH
    end.
Qed.

Lemma read_uint_zero (d : Decimal.uint) :
  JS.read_digits 10 (NilEmpty.string_of_uint d) (Some 0)
  = Some (Z.of_N (Pos.of_uint d)).
Proof.
  induction d as [|d IH|d IH|d IH|d IH|d IH|d IH|d IH|d IH|d IH|d IH];
    [reflexivity | digit_step IH; exact IH | ..];
    digit_step IH; cbn [Z.of_N];
    match goal with
    | |- JS.read_digits 10 _ (Some ?a) = Some (Z.pos (Pos.of_uint_acc _ ?b)) =>
        replace a with (Z.pos b) by lia; apply read_uint_acc
    end.
Qed.

Lemma read_uint (d : Decimal.uint) :
  d <> Decimal.Nil ->
  JS.read_digits 10 (NilEmpty.string_of_uint d) None
  = Some (Z.of_N (Pos.of_uint d)).
Proof.
  destruct d; intros Hd; [congruence | ..];
    digit_step Hd; [apply read_uint_zero | ..]; cbn [Z.of_N];
    match goal with
    | |- JS.read_digits 10 _ (Some ?a) = Some (Z.pos (Pos.of_uint_acc _ ?b)) =>
        replace a with (Z.pos b) by lia; apply read_uint_acc
    end.
Qed.

Lemma uint_text_plain (d : Decimal.uint) :
  JS.trim_start (NilEmpty.string_of_uint d) = NilEmpty.string_of_uint d
  /\ JS.strip_sign (NilEmpty.string_of_uint d) = (1, NilEmpty.string_of_uint d)
  /\ JS.strip_prefix (NilEmpty.string_of_uint d) = (10, NilEmpty.string_of_uint d)
  /\ hasSlash (NilEmpty.string_of_uint d) = false.
Proof.
  repeat split.
  - destruct d; reflexivity.
  - destruct d; reflexivity.
  - destruct d as [|d|d|d|d|d|d|d|d|d|d]; try reflexivity.
    destruct d; reflexivity.
  - induction d; simpl; auto.
Qed.

Lemma parseInt_toString (n : Z) : JS.parseInt (toString n) = Some n.
Proof.
  unfold toString, JS.parseInt.
  destruct n as [|p|p]; [reflexivity | |].
  - cbn [Z.to_int NilEmpty.string_of_int].
    destruct (uint_text_plain (Pos.to_uint p)) as (H1 & H2 & H3 & _).
    rewrite H1, H2, H3.
    rewrite (read_uint _ (Unsigned.to_uint_nonnil p)), Unsigned.of_to.
    reflexivity.
  - cbn [Z.to_int NilEmpty.string_of_int].
    destruct (uint_text_plain (Pos.to_uint p)) as (_ & _ & H3 & _).
    cbn [JS.trim_start]. change (JS.is_white "-") with false. cbv iota.
    cbn [JS.strip_sign]. rewrite H3.
    rewrite (read_uint _ (Unsigned.to_uint_nonnil p)), Unsigned.of_to.
    reflexivity.
Qed.

Lemma toString_segment (n : Z) : toString n <> "" /\ hasSlash (toString n) = false.
Proof.
  unfold toString. destruct n as [|p|p]; cbn [Z.to_int NilEmpty.string_of_int].
  - split; [discriminate | reflexivity].
  - split.
    + pose proof (Unsigned.to_uint_nonnil p) as H.
      destruct (Pos.to_uint p); [congruence | discriminate ..].
    + apply uint_text_plain.
  - split; [discriminate|].
    cbn [hasSlash]. change (Ascii.eqb "-" "/") with false.
    apply uint_text_plain.
Qed.

(** X11: the link of a row leads to the detail page of that subject: the
    path is [/influencers/] followed by one non-empty segment, and
    [parseInt] of that segment is the [id] of the row (for a whole-number
    id below 10^21 in size, which a template literal writes in plain
    digits). *)
Theorem row_link_round_trip :
  forall inf : Influencer,
    Z.abs (id inf) < 10 ^ 21 ->
    exists param : string,
      linkTo inf = "/influencers/" ++ param
      /\ param <> ""
      /\ hasSlash param = false
      /\ detailId param = Some (id inf).
Proof.
  intros inf _. exists (toString (id inf)).
  destruct (toString_segment (id inf)) as [H1 H2].
  repeat split; try assumption.
  apply parseInt_toString.
Qed.

Lemma row_link_round_trip_witness :
  Z.abs (id techInfluencer) < 10 ^ 21
  /\ exists param : string,
       linkTo techInfluencer = "/influencers/" ++ param
       /\ param <> ""
       /\ hasSlash param = false
       /\ detailId param = Some 1.
Proof.
  assert (H : Z.abs (id techInfluencer) < 10 ^ 21) by reflexivity.
  split; [exact H|].
  exact (row_link_round_trip techInfluencer H).
Defined.

(** ** The class helper of the layout *)

Lemma split_not_nil (s : string) : split s <> [].
Proof.
  destruct s as [|c t]; simpl; [discriminate|].
  destruct (Ascii.eqb c " "); [discriminate|].
  destruct (split t); discriminate.
Qed.

Lemma split_app_space (a b : string) :
  split (a ++ String " " b) = (split a ++ split b)%list.
Proof.
  induction a as [|c t IH]; [reflexivity|].
  cbn [append split]. rewrite IH.
  destruct (Ascii.eqb c " "); [reflexivity|].
  pose proof (split_not_nil t) as Ht.
  destruct (split t) as [|h r]; [congruence | reflexivity].
Qed.

Lemma classList_join (l : list string) :
  classList (join " " l) = flat_map classList l.
Proof.
  induction l as [|a t IH]; [reflexivity|].
  destruct t as [|b t'].
  - simpl. rewrite app_nil_r. reflexivity.
  - change (join " " (a :: b :: t')) with (a ++ String " " (join " " (b :: t'))).
    unfold classList at 1. rewrite split_app_space, filter_app.
    fold (classList a). fold (classList (join " " (b :: t'))).
    rewrite IH. reflexivity.
Qed.

(** X12: the class names that [classNames] yields are those of its
    arguments, in order; an argument that is [undefined] or empty adds
    none, and no two names run together. *)
Theorem classNames_class_list :
  forall classes : list JS.value,
    classList (classNames classes) = flat_map valueClasses classes.
Proof.
  intros classes. unfold classNames. rewrite classList_join.
  induction classes as [|v t IH]; [reflexivity|].
  destruct v as [[|c s]|]; simpl; rewrite IH; reflexivity.
Qed.

Example classNames_inactive_link :
  classNames [Some "text-gray-600 hover:bg-gray-50"; None; Some "";
              Some "group flex items-center"]
  = "text-gray-600 hover:bg-gray-50 group flex items-center".
Proof. reflexivity. Qed.
